(** * Budget and dayparting state machine of django-budget-system

    A shallow embedding of [budget_system/models.py], [budget_system/tasks.py]
    and the two writing views of [budget_system/views.py].

    Modelling conventions.
    - Money ([DecimalField], two decimal places) is an integer number of
      cents in [Z]; [Decimal('0.00')] is [0].
    - A database table is the collection of its rows.  [budget_summary] has
      [unique_together = (brand, date)] and is only ever addressed through
      that pair, so it is a finite map from (brand id, date) to the money
      columns; an instance is those columns with the brand and the date.
      The other tables are lists of rows in query order.
    - A model instance carries its related [brand] object, as the ORM caches
      it.  No modelled operation writes a [Brand] row.
    - [timezone.now()] and the pytz conversion are the environment: they are
      the variables [now] and [astimezone] of the section below.  One run of
      an operation sees one value of [now].
    - [Campaign.save(update_fields=['status', 'updated_at'])] is the only
      statement that writes a campaign row; it also appends the write and
      the database it happened in to a ghost history, [status_log]. *)

From stdpp Require Import gmap list strings.
From Stdlib Require Import ZArith Lia.

Open Scope Z_scope.

(** ** Data model *)

Record date := Date { year : Z; month : Z; day : Z }.

#[global] Instance date_eq_dec : EqDecision date.
Proof. solve_decision. Defined.

#[global] Instance date_countable : Countable date.
Proof.
  refine (inj_countable' (fun d => (year d, month d, day d))
                         (fun t => Date t.1.1 t.1.2 t.2) _).
  by intros [].
Defined.

(** [date.replace(day=1)] *)
Definition replace_day (d : date) (new_day : Z) : date :=
  {| year := year d; month := month d; day := new_day |}.

(** Order of [datetime.date] values: lexicographic on year, month, day. *)
Definition date_leb (a b : date) : bool :=
  (year a <? year b)
  || ((year a =? year b)
      && ((month a <? month b)
          || ((month a =? month b) && (day a <=? day b)))).

(** What the code reads of a [datetime]: [.date()], [.weekday()]
    (0 = Monday) and [.hour]. *)
Record datetime := DateTime { dt_date : date; dt_weekday : Z; dt_hour : Z }.

Inductive Status := ACTIVE | PAUSED_BUDGET | PAUSED_DAYPART | INACTIVE.

#[global] Instance Status_eq_dec : EqDecision Status.
Proof. solve_decision. Defined.

Record Brand := {
  brand_id : Z;
  daily_budget : Z;
  monthly_budget : Z;
  timezone : string;
  brand_is_active : bool
}.

Record Campaign := {
  campaign_id : Z;
  campaign_brand : Brand;
  status : Status;
  campaign_is_active : bool;
  campaign_updated_at : datetime
}.

Record DaypartingSchedule := {
  schedule_campaign : Z;
  day_of_week : Z;
  start_hour : Z;
  end_hour : Z;
  schedule_is_active : bool
}.

Record SpendRecord := {
  record_brand : Z;
  record_campaign : Z;
  amount : Z;
  spend_date : date;
  spend_datetime : datetime
}.

(** The money columns of a [budget_summary] row ([updated_at] is left
    out: nothing reads it). *)
Record Columns := {
  daily_spend : Z;
  monthly_spend : Z;
  daily_remaining : Z;
  monthly_remaining : Z
}.

Record BudgetSummary := {
  summary_brand : Brand;
  summary_date : date;
  columns :> Columns
}.

Record DB := {
  brands : list Brand;
  campaigns : list Campaign;
  dayparting_schedules : list DaypartingSchedule;
  spend_records : list SpendRecord;
  budget_summaries : gmap (Z * date) Columns
}.

(** One [Campaign.save(update_fields=['status', 'updated_at'])]: the
    instance as it is saved, and the database the write happened in. *)
Record StatusWrite := { sw_db : DB; sw_campaign : Campaign }.

Record World := { db : DB; status_log : list StatusWrite }.

Definition set_status (c : Campaign) (s : Status) : Campaign :=
  {| campaign_id := campaign_id c; campaign_brand := campaign_brand c;
     status := s; campaign_is_active := campaign_is_active c;
     campaign_updated_at := campaign_updated_at c |}.

Definition set_campaigns (d : DB) (cs : list Campaign) : DB :=
  {| brands := brands d; campaigns := cs;
     dayparting_schedules := dayparting_schedules d;
     spend_records := spend_records d;
     budget_summaries := budget_summaries d |}.

Definition set_spend_records (d : DB) (rs : list SpendRecord) : DB :=
  {| brands := brands d; campaigns := campaigns d;
     dayparting_schedules := dayparting_schedules d;
     spend_records := rs;
     budget_summaries := budget_summaries d |}.

Definition set_budget_summaries (d : DB) (m : gmap (Z * date) Columns) : DB :=
  {| brands := brands d; campaigns := campaigns d;
     dayparting_schedules := dayparting_schedules d;
     spend_records := spend_records d;
     budget_summaries := m |}.

Definition set_db (w : World) (d : DB) : World :=
  {| db := d; status_log := status_log w |}.

(** ** Sample states

    Monday 2024-03-11, 09:00; one brand in UTC with a daily budget of
    100.00 and a monthly budget of 1000.00; one campaign scheduled on
    Mondays from 8 to 20. *)

Definition sample_now : datetime :=
  {| dt_date := Date 2024 3 11; dt_weekday := 0; dt_hour := 9 |}.

(** Every sample brand is in UTC: local time is UTC time. *)
Definition sample_astimezone (name : string) (utc_time : datetime) : datetime :=
  utc_time.

Definition sample_brand : Brand :=
  {| brand_id := 1; daily_budget := 10000; monthly_budget := 100000;
     timezone := "UTC"; brand_is_active := true |}.

Definition sample_campaign (s : Status) : Campaign :=
  {| campaign_id := 1; campaign_brand := sample_brand; status := s;
     campaign_is_active := true;
     campaign_updated_at :=
       {| dt_date := Date 2024 3 10; dt_weekday := 6; dt_hour := 12 |} |}.

Definition sample_schedule : DaypartingSchedule :=
  {| schedule_campaign := 1; day_of_week := 0; start_hour := 8; end_hour := 20;
     schedule_is_active := true |}.

Definition sample_world (s : Status) (records : list SpendRecord)
    (summaries : gmap (Z * date) Columns) : World :=
  {| db := {| brands := [sample_brand];
              campaigns := [sample_campaign s];
              dayparting_schedules := [sample_schedule];
              spend_records := records;
              budget_summaries := summaries |};
     status_log := [] |}.

(** The campaign runs and nothing has been spent. *)
Definition spend_world : World := sample_world ACTIVE [] ∅.

(** The campaign is paused for budget and today has no summary yet. *)
Definition paused_world : World := sample_world PAUSED_BUDGET [] ∅.

(** As [paused_world], after a spend of 2000.00 on 2024-03-05. *)
Definition overspent_world : World :=
  sample_world PAUSED_BUDGET
    [{| record_brand := 1; record_campaign := 1; amount := 200000;
        spend_date := Date 2024 3 5;
        spend_datetime :=
          {| dt_date := Date 2024 3 5; dt_weekday := 1; dt_hour := 10 |} |}]
    ∅.

(** Today's daily budget is spent and the campaign is paused for it. *)
Definition exhausted_row : Columns :=
  {| daily_spend := 10000; monthly_spend := 10000;
     daily_remaining := 0; monthly_remaining := 90000 |}.

Definition exhausted_world : World :=
  sample_world PAUSED_BUDGET [] {[ (1, Date 2024 3 11) := exhausted_row ]}.

(** What a status view answers: 200 with its data, 404 or 500. *)
Inductive StatusResponse (A : Type) :=
  | status_ok (data : A)
  | status_not_found
  | status_error.
Arguments status_ok {A} data.
Arguments status_not_found {A}.
Arguments status_error {A}.

(** ** Further sample states *)

(** [d - timedelta(days=n)] for results that stay in the month of [d]. *)
Definition sample_timedelta_before (d : date) (n : Z) : date :=
  {| year := year d; month := month d; day := day d - n |}.

(** The campaign has been deactivated by hand. *)
Definition inactive_world : World := sample_world INACTIVE [] ∅.

(** The month's budget is spent, today's is not, and the campaign is
    paused for it. *)
Definition month_exhausted_row : Columns :=
  {| daily_spend := 0; monthly_spend := 100000;
     daily_remaining := 10000; monthly_remaining := 0 |}.

Definition month_exhausted_world : World :=
  sample_world PAUSED_BUDGET [] {[ (1, Date 2024 3 11) := month_exhausted_row ]}.

(** A schedule from 20 to 8, which [clean] rejects, is the only one. *)
Definition inverted_schedule : DaypartingSchedule :=
  {| schedule_campaign := 1; day_of_week := 0; start_hour := 20; end_hour := 8;
     schedule_is_active := true |}.

Definition inverted_world : World :=
  {| db := {| brands := [sample_brand];
              campaigns := [sample_campaign ACTIVE];
              dayparting_schedules := [inverted_schedule];
              spend_records := [];
              budget_summaries := ∅ |};
     status_log := [] |}.

(** Two spend records, of 2024-02-20 and of 2024-03-05. *)
Definition ledger_world : World :=
  sample_world ACTIVE
    [{| record_brand := 1; record_campaign := 1; amount := 3000;
        spend_date := Date 2024 2 20;
        spend_datetime :=
          {| dt_date := Date 2024 2 20; dt_weekday := 1; dt_hour := 10 |} |};
     {| record_brand := 1; record_campaign := 1; amount := 4000;
        spend_date := Date 2024 3 5;
        spend_datetime :=
          {| dt_date := Date 2024 3 5; dt_weekday := 1; dt_hour := 10 |} |}]
    ∅.

(** The campaign runs although today's daily budget is spent. *)
Definition overrun_world : World :=
  sample_world ACTIVE [] {[ (1, Date 2024 3 11) := exhausted_row ]}.

Section Models.

(** [timezone.now()] *)
Variable now : datetime.
(** [utc_time.astimezone(pytz.timezone(name))] *)
Variable astimezone : string -> datetime -> datetime.
(** [d - timedelta(days=n)] of the [datetime] library *)
Variable timedelta_before : date -> Z -> date.

(** *** Brand *)

Definition get_local_time (b : Brand) (utc_time : option datetime) : datetime :=
  let utc_time := default now utc_time in
  astimezone (timezone b) utc_time.

Definition has_budget_remaining (d : DB) (b : Brand) (check_date : option date) : bool :=
  let check_date := default (dt_date now) check_date in
  match budget_summaries d !! (brand_id b, check_date) with
  | Some summary =>
      (0 <? daily_remaining summary) && (0 <? monthly_remaining summary)
  | None => true
  end.

(** *** Campaign *)

(** The [for schedule in schedules] loop of [is_within_dayparting_window]. *)
Fixpoint window_loop (schedules : list DaypartingSchedule) (current_hour : Z) : bool :=
  match schedules with
  | [] => false
  | schedule :: rest =>
      if (start_hour schedule <=? current_hour) && (current_hour <=? end_hour schedule)
      then true
      else window_loop rest current_hour
  end.

(** [self.dayparting_schedules.filter(day_of_week=current_day, is_active=True)] *)
Definition schedules_for (d : DB) (c : Campaign) (current_day : Z) : list DaypartingSchedule :=
  filter (fun s => schedule_campaign s = campaign_id c
                   ∧ day_of_week s = current_day
                   ∧ schedule_is_active s = true)
         (dayparting_schedules d).

Definition is_within_dayparting_window (d : DB) (c : Campaign)
    (check_time : option datetime) : bool :=
  let check_time := default now check_time in
  let local_time := get_local_time (campaign_brand c) (Some check_time) in
  let current_day := dt_weekday local_time in
  let current_hour := dt_hour local_time in
  let schedules := schedules_for d c current_day in
  match schedules with
  | [] => false
  | _ => window_loop schedules current_hour
  end.

Definition can_run_now (d : DB) (c : Campaign) (check_time : option datetime) : bool :=
  if negb (campaign_is_active c) then false
  else if negb (has_budget_remaining d (campaign_brand c) None) then false
  else is_within_dayparting_window d c check_time.


(** [Model.save(update_fields=['status', 'updated_at'])] on a campaign:
    [auto_now] sets [updated_at], then the row with the instance's primary
    key gets the two columns.  The write is recorded in [status_log]. *)
Definition save_campaign (w : World) (c : Campaign) : Campaign * World :=
  let c := {| campaign_id := campaign_id c; campaign_brand := campaign_brand c;
              status := status c; campaign_is_active := campaign_is_active c;
              campaign_updated_at := now |} in
  let write row :=
    if decide (campaign_id row = campaign_id c)
    then {| campaign_id := campaign_id row; campaign_brand := campaign_brand row;
            status := status c; campaign_is_active := campaign_is_active row;
            campaign_updated_at := campaign_updated_at c |}
    else row in
  (c, {| db := set_campaigns (db w) (map write (campaigns (db w)));
         status_log := {| sw_db := db w; sw_campaign := c |} :: status_log w |}).

Definition pause_for_budget (w : World) (c : Campaign) : Campaign * World :=
  save_campaign w (set_status c PAUSED_BUDGET).

Definition pause_for_dayparting (w : World) (c : Campaign) : Campaign * World :=
  save_campaign w (set_status c PAUSED_DAYPART).

Definition activate (w : World) (c : Campaign) : Campaign * World :=
  if can_run_now (db w) c None
  then save_campaign w (set_status c ACTIVE)
  else (c, w).

(** *** BudgetSummary *)

Definition set_daily (row : Columns) (spend remaining : Z) : Columns :=
  {| daily_spend := spend; monthly_spend := monthly_spend row;
     daily_remaining := remaining; monthly_remaining := monthly_remaining row |}.

Definition set_monthly (row : Columns) (spend remaining : Z) : Columns :=
  {| daily_spend := daily_spend row; monthly_spend := spend;
     daily_remaining := daily_remaining row; monthly_remaining := remaining |}.

Definition set_columns (s : BudgetSummary) (row : Columns) : BudgetSummary :=
  {| summary_brand := summary_brand s; summary_date := summary_date s;
     columns := row |}.

(** The [update_fields] argument of [save]: absent (every column, used by
    the insert of [get_or_create]), the daily pair, or the monthly pair. *)
Inductive UpdateFields := all_fields | daily_fields | monthly_fields.

(** [BudgetSummary.save]: both remaining attributes are recomputed on the
    instance, then the columns named by [update_fields] are written to the
    row of the instance.  Every instance the code saves with
    [update_fields] was fetched or created just before and rows are never
    deleted, so that row exists. *)
Definition save (w : World) (s : BudgetSummary) (fields : UpdateFields)
    : BudgetSummary * World :=
  let s := set_columns s (set_daily s (daily_spend s)
             (daily_budget (summary_brand s) - daily_spend s)) in
  let s := set_columns s (set_monthly s (monthly_spend s)
             (monthly_budget (summary_brand s) - monthly_spend s)) in
  let key := (brand_id (summary_brand s), summary_date s) in
  let rows := budget_summaries (db w) in
  let rows :=
    match fields with
    | all_fields => <[key := columns s]> rows
    | daily_fields =>
        alter (fun row => set_daily row (daily_spend s) (daily_remaining s)) key rows
    | monthly_fields =>
        alter (fun row => set_monthly row (monthly_spend s) (monthly_remaining s)) key rows
    end in
  (s, set_db w (set_budget_summaries (db w) rows)).

Definition update_daily_spend (w : World) (s : BudgetSummary) (amount : Z)
    : BudgetSummary * World :=
  save w (set_columns s (set_daily s (daily_spend s + amount) (daily_remaining s))) daily_fields.

Definition update_monthly_spend (w : World) (s : BudgetSummary) (amount : Z)
    : BudgetSummary * World :=
  save w (set_columns s (set_monthly s (monthly_spend s + amount) (monthly_remaining s))) monthly_fields.

Definition reset_daily_spend (w : World) (s : BudgetSummary) : BudgetSummary * World :=
  save w (set_columns s (set_daily s 0 (daily_remaining s))) daily_fields.

Definition reset_monthly_spend (w : World) (s : BudgetSummary) : BudgetSummary * World :=
  save w (set_columns s (set_monthly s 0 (monthly_remaining s))) monthly_fields.

(** The rows [_calculate_monthly_spend] aggregates. *)
Definition month_to_date (d : DB) (b : Brand) (target_date : date) : list SpendRecord :=
  let first_day := replace_day target_date 1 in
  filter (fun r => record_brand r = brand_id b
                   ∧ date_leb first_day (spend_date r) = true
                   ∧ date_leb (spend_date r) target_date = true)
         (spend_records d).

(** [aggregate(total=Sum('amount'))['total']]: [None] over no rows. *)
Definition aggregate_sum (rows : list SpendRecord) : option Z :=
  match rows with
  | [] => None
  | _ => Some (foldr (fun r acc => amount r + acc) 0 rows)
  end.

Definition _calculate_monthly_spend (d : DB) (b : Brand) (target_date : date) : Z :=
  let monthly_spend := aggregate_sum (month_to_date d b target_date) in
  match monthly_spend with
  | Some total => total
  | None => 0
  end.

(** [objects.get_or_create]: the instance of the existing row, or an
    instance built from the lookup and the defaults and inserted through
    [save]. *)
Definition get_or_create_for_date (w : World) (b : Brand) (target_date : date)
    : BudgetSummary * World :=
  match budget_summaries (db w) !! (brand_id b, target_date) with
  | Some row =>
      ({| summary_brand := b; summary_date := target_date; columns := row |}, w)
  | None =>
      save w {| summary_brand := b; summary_date := target_date;
                columns :=
                  {| daily_spend := 0;
                     monthly_spend := _calculate_monthly_spend (db w) b target_date;
                     daily_remaining := daily_budget b;
                     monthly_remaining := monthly_budget b |} |} all_fields
  end.

(** ** Tasks ([budget_system/tasks.py])

    Each task body is the [try] block; on a database in which every model
    instance met by the task has its row (rows are never deleted by these
    tasks) no statement of the block raises, so the [except] branch, which
    hands the task back to the dispatcher, is not part of the model.  The
    counters that are only logged are left out. *)

(** [Campaign.objects.filter(is_active=True)] and the like keep query
    order; the rows are fetched once, before the loop. *)
Definition dayparting_body (w : World) (campaign : Campaign) : World :=
  let current_time := now in
  if is_within_dayparting_window (db w) campaign (Some current_time) then
    if bool_decide (status campaign = PAUSED_DAYPART)
       && has_budget_remaining (db w) (campaign_brand campaign) None
    then (activate w campaign).2
    else w
  else
    if bool_decide (status campaign = ACTIVE)
    then (pause_for_dayparting w campaign).2
    else w.

Definition check_campaign_dayparting (w : World) : World :=
  let campaigns :=
    filter (fun c => campaign_is_active c = true) (campaigns (db w)) in
  foldl dayparting_body w campaigns.

Definition status_body (w : World) (campaign : Campaign) : World :=
  let has_budget := has_budget_remaining (db w) (campaign_brand campaign) None in
  if negb has_budget && bool_decide (status campaign = ACTIVE) then
    (pause_for_budget w campaign).2
  else if has_budget && bool_decide (status campaign = PAUSED_BUDGET) then
    if is_within_dayparting_window (db w) campaign None
    then (activate w campaign).2
    else w
  else w.

Definition update_campaign_status (w : World) : World :=
  let campaigns :=
    filter (fun c => campaign_is_active c = true
                     ∧ (status c = ACTIVE ∨ status c = PAUSED_BUDGET))
           (campaigns (db w)) in
  foldl status_body w campaigns.

(** [brand.campaigns.filter(is_active=True, status='PAUSED_BUDGET')] *)
Definition paused_campaigns (d : DB) (b : Brand) : list Campaign :=
  filter (fun c => brand_id (campaign_brand c) = brand_id b
                   ∧ campaign_is_active c = true
                   ∧ status c = PAUSED_BUDGET)
         (campaigns d).

Definition reactivate_body (w : World) (campaign : Campaign) : World :=
  if can_run_now (db w) campaign None
  then (activate w campaign).2
  else w.

Definition reset_daily_body (today : date) (w : World) (brand : Brand) : World :=
  let '(summary, w) := get_or_create_for_date w brand today in
  if 0 <? daily_spend summary then
    let '(summary, w) := reset_daily_spend w summary in
    foldl reactivate_body w (paused_campaigns (db w) brand)
  else w.

Definition reset_daily_budgets (w : World) : World :=
  let today := dt_date now in
  let brands := filter (fun b => brand_is_active b = true) (brands (db w)) in
  foldl (reset_daily_body today) w brands.

Definition reset_monthly_body (today : date) (w : World) (brand : Brand) : World :=
  let '(summary, w) := get_or_create_for_date w brand today in
  if 0 <? monthly_spend summary then
    let '(summary, w) := reset_monthly_spend w summary in
    foldl reactivate_body w (paused_campaigns (db w) brand)
  else w.

Definition reset_monthly_budgets (w : World) : World :=
  let today := dt_date now in
  let brands := filter (fun b => brand_is_active b = true) (brands (db w)) in
  foldl (reset_monthly_body today) w brands.

(** The dictionary [record_spend] returns ([spend_record_id], an
    auto-assigned key, is left out). *)
Inductive TaskResult :=
  | Failure (error : string)
  | Success (daily_remaining monthly_remaining : Z) (campaign_paused : bool).

(** [Brand.objects.get(id=brand_id, is_active=True)]; [id] is the primary
    key, so at most one row matches and [None] is [DoesNotExist]. *)
Definition get_brand (d : DB) (id : Z) : option Brand :=
  head (filter (fun b => brand_id b = id ∧ brand_is_active b = true) (brands d)).

(** [Campaign.objects.get(id=campaign_id, brand=brand, is_active=True)] *)
Definition get_campaign (d : DB) (id : Z) (brand : Brand) : option Campaign :=
  head (filter (fun c => campaign_id c = id
                         ∧ brand_id (campaign_brand c) = brand_id brand
                         ∧ campaign_is_active c = true)
               (campaigns d)).

(** [SpendRecord.objects.create(...)] *)
Definition create_spend_record (w : World) (r : SpendRecord) : World :=
  set_db w (set_spend_records (db w) (spend_records (db w) ++ [r])).

(** The last block of [record_spend]: the budget check and the returned
    dictionary. *)
Definition check_limits (w : World) (campaign : Campaign) (summary : BudgetSummary)
    : TaskResult * World :=
  let '(campaign, w) :=
    if (daily_remaining summary <=? 0) || (monthly_remaining summary <=? 0) then
      if bool_decide (status campaign = ACTIVE)
      then pause_for_budget w campaign
      else (campaign, w)
    else (campaign, w) in
  (Success (daily_remaining summary) (monthly_remaining summary)
           (negb (bool_decide (status campaign = ACTIVE))), w).

(** [record_spend], at its declared parameters (primed here, the plain
    names being the columns).  [amount'] is the value of
    [Decimal(str(amount))] in cents and [spend_datetime'] the parsed
    timestamp, [None] when the argument is absent. *)
Definition record_spend (w : World) (brand_id' campaign_id' amount' : Z)
    (spend_datetime' : option datetime) : TaskResult * World :=
  let spend_dt := default now spend_datetime' in
  let spend_date' := dt_date spend_dt in
  let amount_decimal := amount' in
  match get_brand (db w) brand_id' with
  | None => (Failure "Invalid brand or campaign ID", w)
  | Some brand =>
      match get_campaign (db w) campaign_id' brand with
      | None => (Failure "Invalid brand or campaign ID", w)
      | Some campaign =>
          let w := create_spend_record w
                     {| record_brand := brand_id brand;
                        record_campaign := campaign_id campaign;
                        amount := amount_decimal;
                        spend_date := spend_date';
                        spend_datetime := spend_dt |} in
          let '(summary, w) := get_or_create_for_date w brand spend_date' in
          let '(summary, w) := update_daily_spend w summary amount_decimal in
          let '(summary, w) := update_monthly_spend w summary amount_decimal in
          check_limits w campaign summary
      end
  end.

(** ** Views ([budget_system/views.py]) *)



Record JsonResponse := { http_status : Z; success : bool }.



Inductive Action := action_activate | action_deactivate | action_other.

(** [CampaignToggleView.post] *)
Definition CampaignToggleView_post (w : World) (campaign_id' : Z) (action : Action)
    : JsonResponse * World :=
  match action with
  | action_other => ({| http_status := 400; success := false |}, w)
  | _ =>
      match head (filter (fun c => campaign_id c = campaign_id'
                                   ∧ campaign_is_active c = true)
                         (campaigns (db w))) with
      | None => ({| http_status := 404; success := false |}, w)
      | Some campaign =>
          match action with
          | action_activate =>
              if can_run_now (db w) campaign None then
                ({| http_status := 200; success := true |}, (activate w campaign).2)
              else ({| http_status := 400; success := false |}, w)
          | _ =>
              ({| http_status := 200; success := true |},
               (save_campaign w (set_status campaign INACTIVE)).2)
          end
      end
  end.

(** ** Concurrent workers

    Several workers run [record_spend] at once.  Each holds its own model
    instances; the database is shared and serves one ORM call at a time
    (the tasks open no transaction and take no row lock).  A worker is
    the point it has reached in [record_spend] together with its local
    variables, and one step is the next ORM call. *)
Inductive Worker :=
  | at_start (brand_id' campaign_id' amount' : Z) (spend_datetime' : option datetime)
  | at_create (brand : Brand) (campaign : Campaign) (amount_decimal : Z) (spend_dt : datetime)
  | at_summary (brand : Brand) (campaign : Campaign) (amount_decimal : Z) (spend_date' : date)
  | at_daily (campaign : Campaign) (summary : BudgetSummary) (amount_decimal : Z)
  | at_monthly (campaign : Campaign) (summary : BudgetSummary) (amount_decimal : Z)
  | at_check (campaign : Campaign) (summary : BudgetSummary)
  | finished (result : TaskResult).

Definition worker_step (w : World) (t : Worker) : Worker * World :=
  match t with
  | at_start brand_id' campaign_id' amount' spend_datetime' =>
      match get_brand (db w) brand_id' with
      | None => (finished (Failure "Invalid brand or campaign ID"), w)
      | Some brand =>
          match get_campaign (db w) campaign_id' brand with
          | None => (finished (Failure "Invalid brand or campaign ID"), w)
          | Some campaign =>
              (at_create brand campaign amount' (default now spend_datetime'), w)
          end
      end
  | at_create brand campaign amount_decimal spend_dt =>
      (at_summary brand campaign amount_decimal (dt_date spend_dt),
       create_spend_record w
         {| record_brand := brand_id brand;
            record_campaign := campaign_id campaign;
            amount := amount_decimal;
            spend_date := dt_date spend_dt;
            spend_datetime := spend_dt |})
  | at_summary brand campaign amount_decimal spend_date' =>
      let '(summary, w) := get_or_create_for_date w brand spend_date' in
      (at_daily campaign summary amount_decimal, w)
  | at_daily campaign summary amount_decimal =>
      let '(summary, w) := update_daily_spend w summary amount_decimal in
      (at_monthly campaign summary amount_decimal, w)
  | at_monthly campaign summary amount_decimal =>
      let '(summary, w) := update_monthly_spend w summary amount_decimal in
      (at_check campaign summary, w)
  | at_check campaign summary =>
      let '(result, w) := check_limits w campaign summary in
      (finished result, w)
  | finished result => (finished result, w)
  end.



(** One worker run alone from start to end. *)
Definition run_alone (w : World) (t : Worker) : Worker * World :=
  let '(t, w) := worker_step w t in
  let '(t, w) := worker_step w t in
  let '(t, w) := worker_step w t in
  let '(t, w) := worker_step w t in
  let '(t, w) := worker_step w t in
  worker_step w t.


(** ** Predicates of the statements *)

(** The two equations between the money columns and a brand's budgets. *)
Definition consistent (b : Brand) (row : Columns) : Prop :=
  daily_remaining row + daily_spend row = daily_budget b
  ∧ monthly_remaining row + monthly_spend row = monthly_budget b.

(** Every stored summary row of every brand is consistent. *)
Definition stored_consistent (w : World) : Prop :=
  ∀ b on row, b ∈ brands (db w) →
    budget_summaries (db w) !! (brand_id b, on) = Some row → consistent b row.

(** The brand object [b] held by an instance has the budgets of the brand
    rows with its id. *)
Definition brand_current (w : World) (b : Brand) : Prop :=
  ∀ b', b' ∈ brands (db w) → brand_id b' = brand_id b →
        daily_budget b' = daily_budget b ∧ monthly_budget b' = monthly_budget b.

(** A recorded status write is allowed when it does not write [ACTIVE],
    or [can_run_now] held for the saved instance in the database the
    write happened in. *)
Definition write_allowed (e : StatusWrite) : Prop :=
  status (sw_campaign e) = ACTIVE →
  can_run_now (sw_db e) (sw_campaign e) None = true.

(** [w'] continues the history of [w] with allowed writes only. *)
Definition allowed_since (w w' : World) : Prop :=
  ∃ writes, status_log w' = writes ++ status_log w ∧ Forall write_allowed writes.

(** Row [c'] is row [c] with its status kept or set to [ACTIVE]
    ([updated_at] apart). *)
Definition kept_or_activated (c c' : Campaign) : Prop :=
  campaign_id c' = campaign_id c
  ∧ campaign_brand c' = campaign_brand c
  ∧ campaign_is_active c' = campaign_is_active c
  ∧ (status c' = status c ∨ status c' = ACTIVE).

(** What stays in place while campaigns are activated. *)
Definition activation_frame (w w' : World) : Prop :=
  budget_summaries (db w') = budget_summaries (db w)
  ∧ dayparting_schedules (db w') = dayparting_schedules (db w)
  ∧ brands (db w') = brands (db w)
  ∧ Forall2 kept_or_activated (campaigns (db w)) (campaigns (db w')).

(** The daily spend of the brand with id [id] on [on] is at zero, and
    none of its campaigns that is switched on, [PAUSED_BUDGET], could run
    now. *)
Definition daily_settled (id : Z) (on : date) (w : World) : Prop :=
  (∃ row, budget_summaries (db w) !! (id, on) = Some row ∧ daily_spend row = 0)
  ∧ ∀ c, c ∈ campaigns (db w) →
         brand_id (campaign_brand c) = id →
         campaign_is_active c = true →
         status c = PAUSED_BUDGET →
         can_run_now (db w) c None = false.


Definition total_amount (rows : list SpendRecord) : Z :=
  foldr (fun r acc => amount r + acc) 0 rows.

(** The spend records of brand [b] dated in the month of [d], up to and
    including [d]. *)
Definition in_month_to_date (b : Brand) (d : date) (r : SpendRecord) : Prop :=
  record_brand r = brand_id b
  ∧ year (spend_date r) = year d
  ∧ month (spend_date r) = month d
  ∧ 1 ≤ day (spend_date r) ≤ day d.

#[global] Instance in_month_to_date_dec b d r : Decision (in_month_to_date b d r).
Proof. unfold in_month_to_date. apply _. Defined.

#[global] Instance datetime_eq_dec : EqDecision datetime.
Proof. solve_decision. Defined.

#[global] Instance Brand_eq_dec : EqDecision Brand.
Proof. solve_decision. Defined.

#[global] Instance Campaign_eq_dec : EqDecision Campaign.
Proof. solve_decision. Defined.

(** Brand rows that share an id share their budgets (the id is the
    primary key). *)
Definition brands_agree (w : World) : Prop :=
  ∀ b, b ∈ brands (db w) → brand_current w b.

(** Row [c'] is row [c] up to its status and [updated_at]. *)
Definition same_campaign (c c' : Campaign) : Prop :=
  campaign_id c' = campaign_id c
  ∧ campaign_brand c' = campaign_brand c
  ∧ campaign_is_active c' = campaign_is_active c.

(** From [w] to [w'] nothing was written but statuses of campaigns. *)
Definition only_statuses_written (w w' : World) : Prop :=
  brands (db w') = brands (db w)
  ∧ dayparting_schedules (db w') = dayparting_schedules (db w)
  ∧ spend_records (db w') = spend_records (db w)
  ∧ budget_summaries (db w') = budget_summaries (db w)
  ∧ Forall2 same_campaign (campaigns (db w)) (campaigns (db w')).

(** Row [r] after a save of its status as [s]. *)
Definition written (r : Campaign) (s : Status) : Campaign :=
  {| campaign_id := campaign_id r; campaign_brand := campaign_brand r;
     status := s; campaign_is_active := campaign_is_active r;
     campaign_updated_at := now |}.

(** What the budget sweep makes of one campaign row. *)
Definition budget_sweep_row (d : DB) (r : Campaign) : Campaign :=
  if bool_decide (campaign_is_active r = true) then
    let has_budget := has_budget_remaining d (campaign_brand r) None in
    if negb has_budget && bool_decide (status r = ACTIVE) then
      written r PAUSED_BUDGET
    else if has_budget && bool_decide (status r = PAUSED_BUDGET)
            && is_within_dayparting_window d r None then
      written r ACTIVE
    else r
  else r.

(** What the dayparting sweep makes of one campaign row. *)
Definition dayparting_sweep_row (d : DB) (r : Campaign) : Campaign :=
  if bool_decide (campaign_is_active r = true) then
    if is_within_dayparting_window d r (Some now) then
      if bool_decide (status r = PAUSED_DAYPART)
         && has_budget_remaining d (campaign_brand r) None
      then written r ACTIVE
      else r
    else if bool_decide (status r = ACTIVE) then written r PAUSED_DAYPART
    else r
  else r.

(** The monthly spend [get_or_create_for_date] finds or seeds for a brand
    and date: the stored one, or the month-to-date total of the ledger. *)
Definition monthly_spend_before (d : DB) (b : Brand) (on : date) : Z :=
  match budget_summaries d !! (brand_id b, on) with
  | Some row => monthly_spend row
  | None => _calculate_monthly_spend d b on
  end.

(** The monthly spend of the brand with id [id] on [on] is at zero, and
    none of its campaigns that is switched on, [PAUSED_BUDGET], could run
    now. *)
Definition monthly_settled (id : Z) (on : date) (w : World) : Prop :=
  (∃ row, budget_summaries (db w) !! (id, on) = Some row ∧ monthly_spend row = 0)
  ∧ ∀ c, c ∈ campaigns (db w) →
         brand_id (campaign_brand c) = id →
         campaign_is_active c = true →
         status c = PAUSED_BUDGET →
         can_run_now (db w) c None = false.

(** What the reactivation loop of the resets makes of one campaign row. *)
Definition reactivated_row (d : DB) (c : Campaign) : Campaign :=
  if can_run_now d c None then written c ACTIVE else c.

(** ** Further code of the repository

    [DaypartingSchedule.clean], [cleanup_old_spend_records] and the two
    status views. *)

(** [DaypartingSchedule.clean]: [Some message] is the [ValueError] raised,
    [None] a normal return. *)
Definition clean (s : DaypartingSchedule) : option string :=
  if start_hour s >? end_hour s
  then Some "Start hour must be less than or equal to end hour"
  else None.

(** [a < b] on [datetime.date] values. *)
Definition date_ltb (a b : date) : bool := negb (date_leb b a).

(** [cleanup_old_spend_records]: the records matched by
    [spend_date__lt=cutoff_date] are deleted (the count is only logged). *)
Definition cleanup_old_spend_records (w : World) (days_to_keep : Z) : World :=
  let cutoff_date := timedelta_before (dt_date now) days_to_keep in
  set_db w (set_spend_records (db w)
              (filter (fun r => date_ltb (spend_date r) cutoff_date = false)
                      (spend_records (db w)))).

Definition DAY_CHOICES : list (Z * string) :=
  [(0, "Monday"); (1, "Tuesday"); (2, "Wednesday"); (3, "Thursday");
   (4, "Friday"); (5, "Saturday"); (6, "Sunday")].

(** [dict(schedule.DAY_CHOICES)[day]]; [None] is the [KeyError]. *)
Definition day_name (day : Z) : option string :=
  snd <$> head (filter (fun choice => choice.1 = day) DAY_CHOICES).

Record ScheduleData := {
  sd_day_of_week : Z;
  sd_day_name : string;
  sd_start_hour : Z;
  sd_end_hour : Z;
  sd_is_active : bool
}.

Definition schedule_data (s : DaypartingSchedule) : option ScheduleData :=
  name ← day_name (day_of_week s);
  Some {| sd_day_of_week := day_of_week s; sd_day_name := name;
          sd_start_hour := start_hour s; sd_end_hour := end_hour s;
          sd_is_active := schedule_is_active s |}.

(** The [data] of [CampaignStatusView.get] (names apart; money in cents
    where the view sends [float(...)]). *)
Record CampaignStatusData := {
  cd_status : Status;
  cd_is_active : bool;
  cd_can_run_now : bool;
  cd_is_within_dayparting : bool;
  cd_has_budget_remaining : bool;
  cd_daily_spent : Z;
  cd_daily_budget : Z;
  cd_daily_remaining : Z;
  cd_monthly_spent : Z;
  cd_monthly_budget : Z;
  cd_monthly_remaining : Z;
  cd_dayparting_schedules : list ScheduleData
}.

(** The [try: objects.get ... except DoesNotExist: get_or_create_for_date]
    of both status views. *)
Definition summary_of_today (w : World) (b : Brand) : BudgetSummary * World :=
  let today := dt_date now in
  match budget_summaries (db w) !! (brand_id b, today) with
  | Some row =>
      ({| summary_brand := b; summary_date := today; columns := row |}, w)
  | None => get_or_create_for_date w b today
  end.

(** [CampaignStatusView.get].  A [KeyError] in the schedule list is
    caught by [except Exception] and answered with 500; what was written
    before stays written. *)
Definition CampaignStatusView_get (w : World) (campaign_id' : Z)
    : StatusResponse CampaignStatusData * World :=
  match head (filter (fun c => campaign_id c = campaign_id'
                               ∧ campaign_is_active c = true)
                     (campaigns (db w))) with
  | None => (status_not_found, w)
  | Some campaign =>
      let '(budget_summary, w) := summary_of_today w (campaign_brand campaign) in
      let can_run := can_run_now (db w) campaign None in
      let is_within_dayparting := is_within_dayparting_window (db w) campaign None in
      let has_budget := has_budget_remaining (db w) (campaign_brand campaign) None in
      match mapM schedule_data
              (filter (fun s => schedule_campaign s = campaign_id campaign
                                ∧ schedule_is_active s = true)
                      (dayparting_schedules (db w))) with
      | Some schedules =>
          (status_ok
             {| cd_status := status campaign;
                cd_is_active := campaign_is_active campaign;
                cd_can_run_now := can_run;
                cd_is_within_dayparting := is_within_dayparting;
                cd_has_budget_remaining := has_budget;
                cd_daily_spent := daily_spend budget_summary;
                cd_daily_budget := daily_budget (campaign_brand campaign);
                cd_daily_remaining := daily_remaining budget_summary;
                cd_monthly_spent := monthly_spend budget_summary;
                cd_monthly_budget := monthly_budget (campaign_brand campaign);
                cd_monthly_remaining := monthly_remaining budget_summary;
                cd_dayparting_schedules := schedules |}, w)
      | None => (status_error, w)
      end
  end.

(** The [data] of [BrandStatusView.get] without the two utilization
    percentages (floating point) and the formatted local time. *)
Record BrandStatusData := {
  bd_daily_spent : Z;
  bd_daily_remaining : Z;
  bd_monthly_spent : Z;
  bd_monthly_remaining : Z;
  bd_has_budget_remaining : bool;
  bd_total : nat;
  bd_active : nat;
  bd_paused_budget : nat;
  bd_paused_daypart : nat;
  bd_inactive : nat
}.

(** [brand.campaigns.filter(is_active=True, status=s).count()] *)
Definition count_status (d : DB) (b : Brand) (s : Status) : nat :=
  length (filter (fun c => brand_id (campaign_brand c) = brand_id b
                           ∧ campaign_is_active c = true ∧ status c = s)
                 (campaigns d)).

(** [BrandStatusView.get].  The utilization percentages divide by the
    budgets as floats: a budget of zero raises [ZeroDivisionError], which
    is answered with 500. *)
Definition BrandStatusView_get (w : World) (brand_id' : Z)
    : StatusResponse BrandStatusData * World :=
  match get_brand (db w) brand_id' with
  | None => (status_not_found, w)
  | Some brand =>
      let '(budget_summary, w) := summary_of_today w brand in
      let total :=
        length (filter (fun c => brand_id (campaign_brand c) = brand_id brand
                                 ∧ campaign_is_active c = true)
                       (campaigns (db w))) in
      if (daily_budget brand =? 0) || (monthly_budget brand =? 0) then
        (status_error, w)
      else
        (status_ok
           {| bd_daily_spent := daily_spend budget_summary;
              bd_daily_remaining := daily_remaining budget_summary;
              bd_monthly_spent := monthly_spend budget_summary;
              bd_monthly_remaining := monthly_remaining budget_summary;
              bd_has_budget_remaining := has_budget_remaining (db w) brand None;
              bd_total := total;
              bd_active := count_status (db w) brand ACTIVE;
              bd_paused_budget := count_status (db w) brand PAUSED_BUDGET;
              bd_paused_daypart := count_status (db w) brand PAUSED_DAYPART;
              bd_inactive := count_status (db w) brand INACTIVE |}, w)
  end.

(** ** Dayparting evaluator *)

Lemma window_loop_true schedules current_hour :
  window_loop schedules current_hour = true ↔
  ∃ s, s ∈ schedules ∧ start_hour s ≤ current_hour ≤ end_hour s.
Proof.
  induction schedules as [|s rest IH]; simpl.
  - split; [done | intros (s & Hin & _); by apply elem_of_nil in Hin].
  - destruct (andb _ _) eqn:Hs.
    + split; [intros _ | done]. exists s. split; [left | lia].
    + rewrite IH. split.
      * intros (s' & Hin & Hb). exists s'. split; [by right | done].
      * intros (s' & Hin & Hb). apply elem_of_cons in Hin as [-> | Hin].
        -- lia.
        -- by exists s'.
Qed.

Lemma elem_of_schedules_for d c current_day s :
  s ∈ schedules_for d c current_day ↔
  s ∈ dayparting_schedules d
  ∧ schedule_campaign s = campaign_id c
  ∧ day_of_week s = current_day
  ∧ schedule_is_active s = true.
Proof. unfold schedules_for. rewrite list_elem_of_filter. tauto. Qed.

(** C4.  [is_within_dayparting_window] answers false when the campaign
    has no active schedule for the local weekday, and otherwise answers
    true exactly when one of its active schedules for that weekday has
    [start_hour <= local hour <= end_hour], both bounds included. *)
Theorem is_within_dayparting_window_spec (d : DB) (c : Campaign)
    (check_time : option datetime) :
  let local_time :=
    get_local_time (campaign_brand c) (Some (default now check_time)) in
  let todays s :=
    s ∈ dayparting_schedules d
    ∧ schedule_campaign s = campaign_id c
    ∧ day_of_week s = dt_weekday local_time
    ∧ schedule_is_active s = true in
  ((∀ s, ¬ todays s) → is_within_dayparting_window d c check_time = false)
  ∧ (is_within_dayparting_window d c check_time = true ↔
     ∃ s, todays s ∧ start_hour s ≤ dt_hour local_time ≤ end_hour s).
Proof.
  intros local_time todays.
  assert (Hiff : is_within_dayparting_window d c check_time = true ↔
                 ∃ s, todays s ∧ start_hour s ≤ dt_hour local_time ≤ end_hour s).
  { unfold is_within_dayparting_window. fold local_time.
    destruct (schedules_for d c (dt_weekday local_time)) as [|s0 rest] eqn:Hsch.
    - split; [done |]. intros (s & Hs & _).
      apply elem_of_schedules_for in Hs. rewrite Hsch in Hs.
      by apply elem_of_nil in Hs.
    - rewrite window_loop_true, <- Hsch. split.
      + intros (s & Hin & Hb). exists s. split; [|done].
        by apply elem_of_schedules_for.
      + intros (s & Hs & Hb). exists s. split; [|done].
        by apply elem_of_schedules_for. }
  split; [|exact Hiff].
  intros Hnone. destruct (is_within_dayparting_window d c check_time) eqn:E; [|done].
  destruct Hiff as [Hex _]. destruct (Hex eq_refl) as (s & Hs & _).
  by destruct (Hnone s).
Qed.

(** ** Budget ledger *)

(** C7.  [has_budget_remaining] answers true exactly when no summary is
    stored for the brand and date, or the stored one has both remaining
    fields above zero. *)
Theorem has_budget_remaining_spec (d : DB) (b : Brand) (check_date : option date) :
  let on := default (dt_date now) check_date in
  has_budget_remaining d b check_date = true ↔
  budget_summaries d !! (brand_id b, on) = None
  ∨ ∃ summary, budget_summaries d !! (brand_id b, on) = Some summary
               ∧ 0 < daily_remaining summary ∧ 0 < monthly_remaining summary.
Proof.
  intros on. unfold has_budget_remaining. fold on.
  destruct (budget_summaries d !! (brand_id b, on)) as [summary|].
  - rewrite andb_true_iff, !Z.ltb_lt. split.
    + intros [? ?]. right. by exists summary.
    + intros [? | (s' & [= <-] & ? & ?)]; done.
  - split; [by left | done].
Qed.

(** *** Frame lemmas: what the queries read *)

Lemma has_budget_remaining_frame d d' b check_date :
  budget_summaries d = budget_summaries d' →
  has_budget_remaining d b check_date = has_budget_remaining d' b check_date.
Proof. unfold has_budget_remaining. by intros ->. Qed.

Lemma is_within_dayparting_window_frame d d' c c' check_time :
  dayparting_schedules d = dayparting_schedules d' →
  campaign_id c = campaign_id c' →
  campaign_brand c = campaign_brand c' →
  is_within_dayparting_window d c check_time
  = is_within_dayparting_window d' c' check_time.
Proof.
  unfold is_within_dayparting_window, schedules_for.
  by intros -> -> ->.
Qed.

Lemma can_run_now_frame d d' c c' check_time :
  budget_summaries d = budget_summaries d' →
  dayparting_schedules d = dayparting_schedules d' →
  campaign_id c = campaign_id c' →
  campaign_brand c = campaign_brand c' →
  campaign_is_active c = campaign_is_active c' →
  can_run_now d c check_time = can_run_now d' c' check_time.
Proof.
  intros Hs Hd Hid Hb Ha. unfold can_run_now.
  rewrite Ha, Hb, (has_budget_remaining_frame d d' _ _ Hs).
  by rewrite (is_within_dayparting_window_frame d d' c c' _ Hd Hid Hb).
Qed.

Lemma save_campaign_summaries w c :
  budget_summaries (db (save_campaign w c).2) = budget_summaries (db w).
Proof. done. Qed.

Lemma save_campaign_schedules w c :
  dayparting_schedules (db (save_campaign w c).2) = dayparting_schedules (db w).
Proof. done. Qed.

(** Writing the same status twice stores what writing it once stores. *)
Lemma save_campaign_twice w c :
  let '(c1, w1) := save_campaign w c in
  (save_campaign w1 c1).1 = c1 ∧ db (save_campaign w1 c1).2 = db w1.
Proof.
  simpl. split; [done|]. unfold set_campaigns. simpl. f_equal.
  rewrite <- list_fmap_compose. apply list_fmap_ext.
  intros i row _. simpl.
  destruct (decide (campaign_id row = campaign_id c)) as [Heq|Hne]; simpl.
  - by rewrite decide_True.
  - by rewrite decide_False.
Qed.

(** ** Campaign state machine *)

(** C8.  When [can_run_now] is false, [activate] returns the instance and
    the database as they were (no field changes, nothing is raised); and
    a second [activate] after a first one changes neither the instance
    nor the database. *)
Theorem activate_self_checking (w : World) (c : Campaign) :
  (can_run_now (db w) c None = false → activate w c = (c, w))
  ∧ (let '(c1, w1) := activate w c in
     (activate w1 c1).1 = c1 ∧ db (activate w1 c1).2 = db w1).
Proof.
  split.
  - intros Hno. unfold activate. by rewrite Hno.
  - unfold activate. destruct (can_run_now (db w) c None) eqn:Hrun.
    + pose proof (save_campaign_twice w (set_status c ACTIVE)) as Htwice.
      destruct (save_campaign w (set_status c ACTIVE)) as [c1 w1] eqn:Hsave.
      assert (Hrun1 : can_run_now (db w1) c1 None = true).
      { rewrite <- Hrun. injection Hsave as <- <-. by apply can_run_now_frame. }
      rewrite Hrun1.
      assert (Hc1 : set_status c1 ACTIVE = c1).
      { injection Hsave as <- _. done. }
      by rewrite Hc1.
    + by rewrite Hrun.
Qed.

(** *** Writes to a summary *)

Lemma save_instance_consistent w s fields :
  consistent (summary_brand s) (save w s fields).1.
Proof. unfold consistent. simpl. lia. Qed.

Lemma save_all_stored w s :
  stored_consistent w → brand_current w (summary_brand s) →
  stored_consistent (save w s all_fields).2.
Proof.
  intros Hinv Hcur b on row Hb. simpl in *.
  destruct (decide ((brand_id (summary_brand s), summary_date s) = (brand_id b, on)))
    as [Heq|Hne].
  - rewrite Heq, lookup_insert_eq. intros [= <-].
    injection Heq as Hid _. destruct (Hcur b Hb (eq_sym Hid)) as [Hd Hm].
    unfold consistent. simpl. lia.
  - rewrite lookup_insert_ne by done. by apply Hinv.
Qed.

Lemma save_daily_stored w s :
  stored_consistent w → brand_current w (summary_brand s) →
  stored_consistent (save w s daily_fields).2.
Proof.
  intros Hinv Hcur b on row Hb. simpl in *.
  destruct (decide ((brand_id (summary_brand s), summary_date s) = (brand_id b, on)))
    as [Heq|Hne].
  - rewrite Heq, lookup_alter_eq.
    destruct (budget_summaries (db w) !! (brand_id b, on)) as [old|] eqn:Hold; [|done].
    simpl. intros [= <-].
    injection Heq as Hid _. destruct (Hcur b Hb (eq_sym Hid)) as [Hd Hm].
    destruct (Hinv b on old Hb Hold) as [_ Hmonth].
    unfold consistent. simpl. split; [lia | done].
  - rewrite lookup_alter_ne by done. by apply Hinv.
Qed.

Lemma save_monthly_stored w s :
  stored_consistent w → brand_current w (summary_brand s) →
  stored_consistent (save w s monthly_fields).2.
Proof.
  intros Hinv Hcur b on row Hb. simpl in *.
  destruct (decide ((brand_id (summary_brand s), summary_date s) = (brand_id b, on)))
    as [Heq|Hne].
  - rewrite Heq, lookup_alter_eq.
    destruct (budget_summaries (db w) !! (brand_id b, on)) as [old|] eqn:Hold; [|done].
    simpl. intros [= <-].
    injection Heq as Hid _. destruct (Hcur b Hb (eq_sym Hid)) as [Hd Hm].
    destruct (Hinv b on old Hb Hold) as [Hday _].
    unfold consistent. simpl. split; [done | lia].
  - rewrite lookup_alter_ne by done. by apply Hinv.
Qed.

Lemma get_or_create_stored w b target_date :
  stored_consistent w → brand_current w b →
  stored_consistent (get_or_create_for_date w b target_date).2.
Proof.
  intros Hinv Hcur. unfold get_or_create_for_date.
  destruct (budget_summaries (db w) !! _); [done|]. by apply save_all_stored.
Qed.

(** What [get_or_create_for_date] returns is an instance of the brand and
    date asked for, holding the row stored afterwards. *)
Lemma get_or_create_lookup w b target_date :
  let '(summary, w') := get_or_create_for_date w b target_date in
  budget_summaries (db w') !! (brand_id b, target_date) = Some (columns summary)
  ∧ summary_brand summary = b
  ∧ summary_date summary = target_date.
Proof.
  unfold get_or_create_for_date.
  destruct (budget_summaries (db w) !! _) eqn:Hrow; [done|].
  simpl. by rewrite lookup_insert_eq.
Qed.

(** C2.  After [update_daily_spend], [update_monthly_spend],
    [reset_daily_spend], [reset_monthly_spend] and after the creation of a
    summary by [get_or_create_for_date], the written instance has
    [daily_remaining + daily_spend = daily_budget] and
    [monthly_remaining + monthly_spend = monthly_budget] of its brand; and
    when every stored row had both equations before the write, and the
    brand object of the instance has the budgets of the stored brand,
    every stored row has them after it. *)
Theorem summary_write_invariant (w : World) (s : BudgetSummary) (amount' : Z)
    (b : Brand) (target_date : date) :
  (consistent (summary_brand s) (update_daily_spend w s amount').1
   ∧ consistent (summary_brand s) (update_monthly_spend w s amount').1
   ∧ consistent (summary_brand s) (reset_daily_spend w s).1
   ∧ consistent (summary_brand s) (reset_monthly_spend w s).1
   ∧ (budget_summaries (db w) !! (brand_id b, target_date) = None →
      consistent b (get_or_create_for_date w b target_date).1))
  ∧ (stored_consistent w →
     (brand_current w b →
      stored_consistent (get_or_create_for_date w b target_date).2)
     ∧ (brand_current w (summary_brand s) →
        stored_consistent (update_daily_spend w s amount').2
        ∧ stored_consistent (update_monthly_spend w s amount').2
        ∧ stored_consistent (reset_daily_spend w s).2
        ∧ stored_consistent (reset_monthly_spend w s).2)).
Proof.
  split.
  - do 4 (split; [exact (save_instance_consistent w (set_columns s _) _)|]).
    intros Hnone. unfold get_or_create_for_date. rewrite Hnone.
    apply (save_instance_consistent w
             {| summary_brand := b; summary_date := target_date;
                columns := _ |}).
  - intros Hinv. split; [by apply get_or_create_stored|].
    intros Hcur.
    unfold update_daily_spend, update_monthly_spend,
      reset_daily_spend, reset_monthly_spend.
    split; [by apply save_daily_stored|].
    split; [by apply save_monthly_stored|].
    split; [by apply save_daily_stored | by apply save_monthly_stored].
Qed.

Lemma date_window_iff b d r :
  (record_brand r = brand_id b
   ∧ date_leb (replace_day d 1) (spend_date r) = true
   ∧ date_leb (spend_date r) d = true)
  ↔ in_month_to_date b d r.
Proof.
  unfold in_month_to_date, date_leb, replace_day. simpl.
  rewrite !orb_true_iff, !andb_true_iff, !orb_true_iff, !andb_true_iff.
  rewrite !Z.ltb_lt, !Z.eqb_eq, !Z.leb_le. lia.
Qed.

Lemma _calculate_monthly_spend_total d b target_date :
  _calculate_monthly_spend d b target_date
  = total_amount (filter (in_month_to_date b target_date) (spend_records d)).
Proof.
  unfold _calculate_monthly_spend, month_to_date.
  rewrite (list_filter_iff _ (in_month_to_date b target_date))
    by (intros r; apply date_window_iff).
  by destruct (filter _ _).
Qed.

(** C5 (as the code has it).  When no summary is stored for the brand and
    date, [get_or_create_for_date] creates one whose [monthly_spend] is
    the sum of the brand's spend records dated from the first of the
    month through the date, whose [daily_spend] is 0, whose
    [daily_remaining] is the daily budget, and whose [monthly_remaining]
    is the monthly budget minus that [monthly_spend]. *)
Theorem get_or_create_for_date_seed (w : World) (b : Brand) (target_date : date) :
  budget_summaries (db w) !! (brand_id b, target_date) = None →
  let '(summary, w') := get_or_create_for_date w b target_date in
  budget_summaries (db w') !! (brand_id b, target_date) = Some (columns summary)
  ∧ monthly_spend summary
    = total_amount (filter (in_month_to_date b target_date) (spend_records (db w)))
  ∧ daily_spend summary = 0
  ∧ daily_remaining summary = daily_budget b
  ∧ monthly_remaining summary = monthly_budget b - monthly_spend summary.
Proof.
  intros Hnone.
  pose proof (get_or_create_lookup w b target_date) as Hrow.
  unfold get_or_create_for_date in *. rewrite Hnone in *.
  simpl in *. split; [apply Hrow|].
  rewrite _calculate_monthly_spend_total. repeat split; lia.
Qed.

(** ** Every write of [ACTIVE] is checked *)

Lemma allowed_since_refl w : allowed_since w w.
Proof. by exists []. Qed.

Lemma allowed_since_trans w1 w2 w3 :
  allowed_since w1 w2 → allowed_since w2 w3 → allowed_since w1 w3.
Proof.
  intros (l1 & E1 & H1) (l2 & E2 & H2). exists (l2 ++ l1). split.
  - by rewrite E2, E1, app_assoc.
  - by apply Forall_app.
Qed.

Lemma allowed_since_foldl {A} (body : World → A → World) (l : list A) w :
  (∀ w x, allowed_since w (body w x)) → allowed_since w (foldl body w l).
Proof.
  intros Hbody. revert w. induction l as [|x l IH]; intros w; simpl.
  - apply allowed_since_refl.
  - eapply allowed_since_trans; [apply Hbody | apply IH].
Qed.

Lemma save_campaign_allowed w c :
  write_allowed {| sw_db := db w; sw_campaign := (save_campaign w c).1 |} →
  allowed_since w (save_campaign w c).2.
Proof.
  intros Hok. eexists [_]. split; [reflexivity|]. by apply Forall_singleton.
Qed.

Lemma pause_for_budget_allowed w c : allowed_since w (pause_for_budget w c).2.
Proof. apply save_campaign_allowed. intros H. discriminate H. Qed.

Lemma pause_for_dayparting_allowed w c : allowed_since w (pause_for_dayparting w c).2.
Proof. apply save_campaign_allowed. intros H. discriminate H. Qed.

Lemma activate_allowed w c : allowed_since w (activate w c).2.
Proof.
  unfold activate. destruct (can_run_now (db w) c None) eqn:Hrun.
  - apply save_campaign_allowed. intros _. simpl.
    rewrite <- Hrun. by apply can_run_now_frame.
  - apply allowed_since_refl.
Qed.

Lemma save_log w s fields : status_log (save w s fields).2 = status_log w.
Proof. done. Qed.

Lemma allowed_since_same_log w w' :
  status_log w' = status_log w → allowed_since w w'.
Proof. intros E. by exists []. Qed.

Lemma get_or_create_log w b target_date :
  status_log (get_or_create_for_date w b target_date).2 = status_log w.
Proof.
  unfold get_or_create_for_date. by destruct (budget_summaries (db w) !! _).
Qed.

Lemma reactivate_body_allowed w c : allowed_since w (reactivate_body w c).
Proof.
  unfold reactivate_body. destruct (can_run_now (db w) c None).
  - apply activate_allowed.
  - apply allowed_since_refl.
Qed.

Lemma dayparting_body_allowed w c : allowed_since w (dayparting_body w c).
Proof.
  unfold dayparting_body.
  repeat case_match; auto using allowed_since_refl, activate_allowed,
    pause_for_dayparting_allowed.
Qed.

Lemma status_body_allowed w c : allowed_since w (status_body w c).
Proof.
  unfold status_body.
  repeat case_match; auto using allowed_since_refl, activate_allowed,
    pause_for_budget_allowed.
Qed.

Lemma reset_daily_body_allowed today w b : allowed_since w (reset_daily_body today w b).
Proof.
  unfold reset_daily_body.
  pose proof (get_or_create_log w b today) as Hlog.
  destruct (get_or_create_for_date w b today) as [summary w1]. simpl in Hlog.
  destruct (0 <? daily_spend summary).
  - unfold reset_daily_spend.
    pose proof (save_log w1 (set_columns summary
                  (set_daily summary 0 (daily_remaining summary))) daily_fields) as Hlog2.
    destruct (save w1 _ daily_fields) as [summary2 w2]. simpl in Hlog2.
    eapply allowed_since_trans.
    + apply allowed_since_same_log. by rewrite Hlog2, Hlog.
    + apply allowed_since_foldl, reactivate_body_allowed.
  - by apply allowed_since_same_log.
Qed.

Lemma reset_monthly_body_allowed today w b :
  allowed_since w (reset_monthly_body today w b).
Proof.
  unfold reset_monthly_body.
  pose proof (get_or_create_log w b today) as Hlog.
  destruct (get_or_create_for_date w b today) as [summary w1]. simpl in Hlog.
  destruct (0 <? monthly_spend summary).
  - unfold reset_monthly_spend.
    pose proof (save_log w1 (set_columns summary
                  (set_monthly summary 0 (monthly_remaining summary))) monthly_fields) as Hlog2.
    destruct (save w1 _ monthly_fields) as [summary2 w2]. simpl in Hlog2.
    eapply allowed_since_trans.
    + apply allowed_since_same_log. by rewrite Hlog2, Hlog.
    + apply allowed_since_foldl, reactivate_body_allowed.
  - by apply allowed_since_same_log.
Qed.

Lemma check_limits_allowed w c summary : allowed_since w (check_limits w c summary).2.
Proof.
  unfold check_limits.
  destruct (_ || _); [destruct (bool_decide _)|]; simpl;
    auto using allowed_since_refl.
  apply pause_for_budget_allowed.
Qed.

Lemma record_spend_allowed w brand_id' campaign_id' amount' spend_datetime' :
  allowed_since w (record_spend w brand_id' campaign_id' amount' spend_datetime').2.
Proof.
  unfold record_spend.
  destruct (get_brand (db w) brand_id') as [brand|]; [|apply allowed_since_refl].
  destruct (get_campaign (db w) campaign_id' brand) as [campaign|];
    [|apply allowed_since_refl].
  set (w1 := create_spend_record w _).
  pose proof (get_or_create_log w1 brand (dt_date (default now spend_datetime'))) as H1.
  destruct (get_or_create_for_date w1 brand _) as [s1 w2]. simpl in H1.
  unfold update_daily_spend, update_monthly_spend.
  pose proof (save_log w2 (set_columns s1
                (set_daily s1 (daily_spend s1 + amount') (daily_remaining s1)))
                daily_fields) as H2.
  destruct (save w2 _ daily_fields) as [s2 w3]. simpl in H2.
  pose proof (save_log w3 (set_columns s2
                (set_monthly s2 (monthly_spend s2 + amount') (monthly_remaining s2)))
                monthly_fields) as H3.
  destruct (save w3 _ monthly_fields) as [s3 w4]. simpl in H3.
  eapply allowed_since_trans; [|apply check_limits_allowed].
  apply allowed_since_same_log. by rewrite H3, H2, H1.
Qed.

Lemma toggle_allowed w campaign_id' action :
  allowed_since w (CampaignToggleView_post w campaign_id' action).2.
Proof.
  unfold CampaignToggleView_post.
  destruct action; try apply allowed_since_refl.
  - destruct (head _) as [campaign|]; [|apply allowed_since_refl].
    destruct (can_run_now (db w) campaign None);
      [apply activate_allowed | apply allowed_since_refl].
  - destruct (head _) as [campaign|]; [|apply allowed_since_refl].
    apply save_campaign_allowed. intros H. discriminate H.
Qed.

(** C9.  Whatever the sweeps, the resets, spend recording and the toggle
    endpoint add to the history of status writes, every added write of
    [ACTIVE] was made while [can_run_now] held for the saved campaign in
    the database of that moment. *)
Theorem active_only_when_can_run (w : World) :
  allowed_since w (check_campaign_dayparting w)
  ∧ allowed_since w (update_campaign_status w)
  ∧ allowed_since w (reset_daily_budgets w)
  ∧ allowed_since w (reset_monthly_budgets w)
  ∧ (∀ brand_id' campaign_id' amount' spend_datetime',
       allowed_since w
         (record_spend w brand_id' campaign_id' amount' spend_datetime').2)
  ∧ (∀ campaign_id' action,
       allowed_since w (CampaignToggleView_post w campaign_id' action).2).
Proof.
  repeat split.
  - apply allowed_since_foldl, dayparting_body_allowed.
  - apply allowed_since_foldl, status_body_allowed.
  - apply allowed_since_foldl, reset_daily_body_allowed.
  - apply allowed_since_foldl, reset_monthly_body_allowed.
  - intros. apply record_spend_allowed.
  - intros. apply toggle_allowed.
Qed.

(** ** Daily reset *)

Lemma can_run_now_frame_key d d' c c' check_time :
  budget_summaries d !! (brand_id (campaign_brand c), dt_date now)
  = budget_summaries d' !! (brand_id (campaign_brand c), dt_date now) →
  dayparting_schedules d = dayparting_schedules d' →
  campaign_id c = campaign_id c' →
  campaign_brand c = campaign_brand c' →
  campaign_is_active c = campaign_is_active c' →
  can_run_now d c check_time = can_run_now d' c' check_time.
Proof.
  intros Hs Hd Hid Hb Ha. unfold can_run_now, has_budget_remaining. simpl.
  rewrite <- Ha, <- Hb, <- Hs.
  by rewrite (is_within_dayparting_window_frame d d' c c' _ Hd Hid Hb).
Qed.

Lemma kept_or_activated_refl c : kept_or_activated c c.
Proof. unfold kept_or_activated. auto. Qed.

Lemma kept_or_activated_trans c1 c2 c3 :
  kept_or_activated c1 c2 → kept_or_activated c2 c3 → kept_or_activated c1 c3.
Proof.
  unfold kept_or_activated. intros (?&?&?&H12) (?&?&?&H23).
  repeat split; try congruence.
  destruct H23 as [H23|H23]; [|by right].
  destruct H12 as [H12|H12]; [left | right]; congruence.
Qed.

Lemma only_activates_refl (l : list Campaign) : Forall2 kept_or_activated l l.
Proof. apply Forall_Forall2_diag, Forall_forall. intros. apply kept_or_activated_refl. Qed.

Lemma only_activates_trans (l1 l2 l3 : list Campaign) :
  Forall2 kept_or_activated l1 l2 → Forall2 kept_or_activated l2 l3 →
  Forall2 kept_or_activated l1 l3.
Proof. apply Forall2_trans. apply kept_or_activated_trans. Qed.

Lemma activate_frame w c : activation_frame w (activate w c).2.
Proof.
  unfold activation_frame, activate.
  destruct (can_run_now (db w) c None); simpl.
  - repeat split. apply Forall2_fmap_r, Forall_Forall2_diag, Forall_forall.
    intros row _. simpl. unfold kept_or_activated.
    destruct (decide _); simpl; auto.
  - repeat split. apply only_activates_refl.
Qed.

Lemma activate_sets w c :
  can_run_now (db w) c None = true →
  ∀ row, row ∈ campaigns (db (activate w c).2) →
         campaign_id row = campaign_id c → status row = ACTIVE.
Proof.
  intros Hrun row. unfold activate. rewrite Hrun. simpl.
  intros (row0 & -> & _)%list_elem_of_fmap.
  destruct (decide _) as [|Hne]; simpl; [done|]. intros Hid. by destruct Hne.
Qed.

Lemma reactivate_body_frame w c : activation_frame w (reactivate_body w c).
Proof.
  unfold reactivate_body. destruct (can_run_now (db w) c None).
  - apply activate_frame.
  - repeat split. apply only_activates_refl.
Qed.

Lemma activation_frame_trans w1 w2 w3 :
  activation_frame w1 w2 → activation_frame w2 w3 → activation_frame w1 w3.
Proof.
  intros (S1 & D1 & B1 & C1) (S2 & D2 & B2 & C2).
  repeat split; try congruence. by eapply only_activates_trans.
Qed.

Lemma reactivate_loop_frame l w : activation_frame w (foldl reactivate_body w l).
Proof.
  revert w. induction l as [|c l IH]; intros w; simpl.
  - repeat split. apply only_activates_refl.
  - eapply activation_frame_trans; [apply reactivate_body_frame | apply IH].
Qed.

Lemma stays_active (l l' : list Campaign) id :
  Forall2 kept_or_activated l l' →
  (∀ row, row ∈ l → campaign_id row = id → status row = ACTIVE) →
  ∀ row, row ∈ l' → campaign_id row = id → status row = ACTIVE.
Proof.
  induction 1 as [|c c' l l' (Hid & _ & _ & Hst) _ IH]; intros Hall row Hin Hrow.
  - by apply elem_of_nil in Hin.
  - apply elem_of_cons in Hin as [-> | Hin].
    + destruct Hst as [Hst|Hst]; [|done]. rewrite Hst.
      apply Hall; [left | congruence].
    + apply IH; [|done..]. intros row' Hin'. apply Hall. by right.
Qed.

Lemma can_run_now_activation_frame w w' c :
  activation_frame w w' → can_run_now (db w') c None = can_run_now (db w) c None.
Proof. intros (S & D & _ & _). by apply can_run_now_frame. Qed.

(** The reactivation loop: a listed campaign that can run is [ACTIVE] in
    every row with its id when the loop ends. *)
Lemma reactivate_loop_activates l w c :
  c ∈ l → can_run_now (db w) c None = true →
  ∀ row, row ∈ campaigns (db (foldl reactivate_body w l)) →
         campaign_id row = campaign_id c → status row = ACTIVE.
Proof.
  revert w. induction l as [|x l IH]; intros w Hin Hrun.
  - by apply elem_of_nil in Hin.
  - simpl. apply elem_of_cons in Hin as [<- | Hin].
    + destruct (reactivate_loop_frame l (reactivate_body w c)) as (_ & _ & _ & Hc).
      apply (stays_active _ _ _ Hc).
      unfold reactivate_body. rewrite Hrun. by apply activate_sets.
    + apply IH; [done|].
      by rewrite (can_run_now_activation_frame _ _ _ (reactivate_body_frame w x)).
Qed.

(** One brand of the daily reset: what it leaves in place. *)
Lemma reset_daily_body_frame today w x :
  let w' := reset_daily_body today w x in
  dayparting_schedules (db w') = dayparting_schedules (db w)
  ∧ brands (db w') = brands (db w)
  ∧ Forall2 kept_or_activated (campaigns (db w)) (campaigns (db w'))
  ∧ ∀ key, key ≠ (brand_id x, today) →
           budget_summaries (db w') !! key = budget_summaries (db w) !! key.
Proof.
  unfold reset_daily_body, get_or_create_for_date.
  destruct (budget_summaries (db w) !! (brand_id x, today)) as [row|] eqn:Hrow.
  - destruct (0 <? daily_spend _) eqn:Hpos; simpl in Hpos; rewrite ?Hpos.
    + unfold reset_daily_spend.
      destruct (save w _ daily_fields) as [s2 w2] eqn:Hsave.
      injection Hsave as _ <-.
      match goal with |- context [foldl reactivate_body ?w0 ?l] =>
        destruct (reactivate_loop_frame l w0) as (S & D & B & C) end.
      simpl in *. rewrite D, B, S. repeat split; try done.
      intros key Hne. by rewrite lookup_alter_ne.
    + simpl. repeat split; try done. apply only_activates_refl.
  - simpl. repeat split; try apply only_activates_refl.
    intros key Hne. by rewrite lookup_insert_ne.
Qed.

Lemma kept_paused_source (l l' : list Campaign) c :
  Forall2 kept_or_activated l l' → c ∈ l' → status c = PAUSED_BUDGET →
  ∃ c0, c0 ∈ l ∧ kept_or_activated c0 c ∧ status c0 = PAUSED_BUDGET.
Proof.
  intros Hall (i & Hi)%list_elem_of_lookup Hst.
  destruct (Forall2_lookup_r _ _ _ _ _ Hall Hi) as (c0 & Hi0 & Hkept).
  exists c0. split; [by eapply list_elem_of_lookup_2|]. split; [done|].
  destruct Hkept as (_ & _ & _ & [E|E]); congruence.
Qed.

Lemma reset_daily_body_keeps_zero id w x :
  (∃ row, budget_summaries (db w) !! (id, dt_date now) = Some row ∧ daily_spend row = 0) →
  ∃ row, budget_summaries (db (reset_daily_body (dt_date now) w x)) !! (id, dt_date now)
         = Some row ∧ daily_spend row = 0.
Proof.
  intros (row & Hrow & Hzero).
  destruct (decide (brand_id x = id)) as [<-|Hne].
  - unfold reset_daily_body, get_or_create_for_date. rewrite Hrow. simpl.
    rewrite Hzero. simpl. by exists row.
  - destruct (reset_daily_body_frame (dt_date now) w x) as (_ & _ & _ & Hother).
    exists row. split; [|done]. rewrite Hother; [done | congruence].
Qed.

Lemma reset_daily_body_keeps_settled id w x :
  daily_settled id (dt_date now) w →
  daily_settled id (dt_date now) (reset_daily_body (dt_date now) w x).
Proof.
  intros [Hzero Hnone]. split; [by apply reset_daily_body_keeps_zero|].
  destruct Hzero as (row & Hrow & Hzero).
  destruct (decide (brand_id x = id)) as [<-|Hne].
  - unfold reset_daily_body, get_or_create_for_date. rewrite Hrow. simpl.
    rewrite Hzero. simpl. exact Hnone.
  - destruct (reset_daily_body_frame (dt_date now) w x) as (D & _ & C & Hother).
    intros c Hin Hb Hact Hst.
    destruct (kept_paused_source _ _ _ C Hin Hst) as (c0 & Hin0 & (Hid & Hbr & Ha & _) & Hst0).
    rewrite <- (Hnone c0 Hin0); [| congruence..].
    apply can_run_now_frame_key; try done.
    apply Hother. rewrite Hb. congruence.
Qed.

(** The brand whose daily spend is above zero: the reset brings it to
    zero and the reactivation loop leaves no runnable campaign paused. *)
Lemma reset_daily_body_settles w x row :
  budget_summaries (db w) !! (brand_id x, dt_date now) = Some row →
  0 < daily_spend row →
  daily_settled (brand_id x) (dt_date now) (reset_daily_body (dt_date now) w x).
Proof.
  intros Hrow Hpos. unfold reset_daily_body, get_or_create_for_date.
  rewrite Hrow. simpl. apply Z.ltb_lt in Hpos. rewrite Hpos.
  match goal with |- daily_settled _ _ (foldl _ ?w0 _) => set (w2 := w0) end.
  change (daily_settled (brand_id x) (dt_date now)
            (foldl reactivate_body w2 (paused_campaigns (db w2) x))).
  pose proof (reactivate_loop_frame (paused_campaigns (db w2) x) w2) as Hframe.
  pose proof Hframe as (S & D & B & C).
  split.
  - rewrite S. simpl. rewrite lookup_alter_eq, Hrow. simpl. eauto.
  - intros c Hin Hb Hact Hst.
    destruct (can_run_now _ c None) eqn:Hrun; [exfalso | done].
    destruct (kept_paused_source _ _ _ C Hin Hst)
      as (c0 & Hin0 & (Hid & Hbr & Ha & _) & Hst0).
    assert (Hrun0 : can_run_now (db w2) c0 None = true).
    { rewrite <- Hrun. symmetry. by apply can_run_now_frame. }
    assert (Hlisted : c0 ∈ paused_campaigns (db w2) x).
    { unfold paused_campaigns. apply list_elem_of_filter.
      split; [|done]. repeat split; congruence. }
    pose proof (reactivate_loop_activates _ _ _ Hlisted Hrun0 c Hin Hid) as Hactive.
    congruence.
Qed.

Lemma reset_daily_body_zero w x :
  (∀ row, budget_summaries (db w) !! (brand_id x, dt_date now) = Some row →
          0 ≤ daily_spend row) →
  ∃ row, budget_summaries (db (reset_daily_body (dt_date now) w x))
           !! (brand_id x, dt_date now) = Some row
         ∧ daily_spend row = 0.
Proof.
  intros Hnonneg.
  destruct (budget_summaries (db w) !! (brand_id x, dt_date now)) as [row|] eqn:Hrow.
  - destruct (decide (0 < daily_spend row)) as [Hpos|Hle].
    + by destruct (reset_daily_body_settles w x row Hrow Hpos).
    + apply reset_daily_body_keeps_zero. exists row. split; [done|].
      specialize (Hnonneg row eq_refl). lia.
  - unfold reset_daily_body, get_or_create_for_date. rewrite Hrow. simpl.
    rewrite lookup_insert_eq. eauto.
Qed.

Lemma reset_daily_loop_keeps_settled id l w :
  daily_settled id (dt_date now) w →
  daily_settled id (dt_date now) (foldl (reset_daily_body (dt_date now)) w l).
Proof.
  revert w. induction l as [|x l IH]; intros w Hw; simpl; [done|].
  by apply IH, reset_daily_body_keeps_settled.
Qed.

Lemma reset_daily_loop_keeps_zero id l w :
  (∃ row, budget_summaries (db w) !! (id, dt_date now) = Some row ∧ daily_spend row = 0) →
  ∃ row, budget_summaries (db (foldl (reset_daily_body (dt_date now)) w l))
           !! (id, dt_date now) = Some row
         ∧ daily_spend row = 0.
Proof.
  revert w. induction l as [|x l IH]; intros w Hw; simpl; [done|].
  by apply IH, reset_daily_body_keeps_zero.
Qed.

Lemma reset_daily_loop_settles l w b row :
  b ∈ l →
  budget_summaries (db w) !! (brand_id b, dt_date now) = Some row →
  0 < daily_spend row →
  daily_settled (brand_id b) (dt_date now) (foldl (reset_daily_body (dt_date now)) w l).
Proof.
  revert w. induction l as [|x l IH]; intros w Hin Hrow Hpos.
  - by apply elem_of_nil in Hin.
  - simpl. destruct (decide (brand_id x = brand_id b)) as [Heq|Hne].
    + apply reset_daily_loop_keeps_settled. rewrite <- Heq.
      apply (reset_daily_body_settles w x row); [by rewrite Heq | done].
    + apply elem_of_cons in Hin as [-> | Hin]; [done|].
      apply (IH _ Hin); [|done].
      destruct (reset_daily_body_frame (dt_date now) w x) as (_ & _ & _ & Hother).
      rewrite Hother; [done | congruence].
Qed.

Lemma reset_daily_loop_zero l w b :
  b ∈ l →
  (∀ row, budget_summaries (db w) !! (brand_id b, dt_date now) = Some row →
          0 ≤ daily_spend row) →
  ∃ row, budget_summaries (db (foldl (reset_daily_body (dt_date now)) w l))
           !! (brand_id b, dt_date now) = Some row
         ∧ daily_spend row = 0.
Proof.
  revert w. induction l as [|x l IH]; intros w Hin Hnonneg.
  - by apply elem_of_nil in Hin.
  - simpl. destruct (decide (brand_id x = brand_id b)) as [Heq|Hne].
    + apply reset_daily_loop_keeps_zero. rewrite <- Heq.
      apply reset_daily_body_zero. by rewrite Heq.
    + apply elem_of_cons in Hin as [-> | Hin]; [done|].
      apply (IH _ Hin).
      destruct (reset_daily_body_frame (dt_date now) w x) as (_ & _ & _ & Hother).
      rewrite Hother; [done | congruence].
Qed.

Lemma reset_daily_loop_only_activates l w :
  Forall2 kept_or_activated (campaigns (db w))
          (campaigns (db (foldl (reset_daily_body (dt_date now)) w l))).
Proof.
  revert w. induction l as [|x l IH]; intros w; simpl.
  - apply only_activates_refl.
  - eapply only_activates_trans; [|apply IH].
    by destruct (reset_daily_body_frame (dt_date now) w x) as (_ & _ & C & _).
Qed.

(** C6 (as the code has it).  After one run of [reset_daily_budgets], for
    an active brand whose stored daily spend for today was not negative, a
    summary for today is stored with [daily_spend = 0]; and when the
    brand's summary for today held a daily spend above zero before the
    run, each of its campaigns that was switched on and [PAUSED_BUDGET]
    is, if [can_run_now] holds for it after the run, [ACTIVE]. *)
Theorem reset_daily_budgets_spec (w : World) (b : Brand) :
  b ∈ brands (db w) →
  brand_is_active b = true →
  let today := dt_date now in
  let w' := reset_daily_budgets w in
  ((∀ row, budget_summaries (db w) !! (brand_id b, today) = Some row →
           0 ≤ daily_spend row) →
   ∃ row, budget_summaries (db w') !! (brand_id b, today) = Some row
          ∧ daily_spend row = 0)
  ∧ ((∃ row, budget_summaries (db w) !! (brand_id b, today) = Some row
             ∧ 0 < daily_spend row) →
     ∀ i c, campaigns (db w) !! i = Some c →
            brand_id (campaign_brand c) = brand_id b →
            campaign_is_active c = true →
            status c = PAUSED_BUDGET →
            ∃ c', campaigns (db w') !! i = Some c'
                  ∧ campaign_id c' = campaign_id c
                  ∧ (can_run_now (db w') c' None = true → status c' = ACTIVE)).
Proof.
  intros Hin Hactive today w'.
  assert (Hlisted : b ∈ filter (fun b => brand_is_active b = true) (brands (db w))).
  { by apply list_elem_of_filter. }
  split.
  - intros Hnonneg. by apply reset_daily_loop_zero.
  - intros (row & Hrow & Hpos) i c Hi Hb Hact Hst.
    pose proof (reset_daily_loop_settles _ w b row Hlisted Hrow Hpos) as [_ Hnone].
    pose proof (reset_daily_loop_only_activates
                  (filter (fun b => brand_is_active b = true) (brands (db w))) w) as C.
    destruct (Forall2_lookup_l _ _ _ _ _ C Hi) as (c' & Hi' & (Hid & Hbr & Ha & Hs)).
    exists c'. split; [exact Hi'|]. split; [done|].
    intros Hrun. destruct Hs as [Hs|Hs]; [|done].
    assert (Hno : can_run_now (db w') c' None = false).
    { apply Hnone; [by eapply list_elem_of_lookup_2 | congruence..]. }
    congruence.
Qed.

(** ** Spend recording *)


Lemma head_filter_fmap {A} (P : A → Prop) `{!∀ x, Decision (P x)}
    (f : A → A) (l : list A) :
  (∀ x, P (f x) ↔ P x) →
  head (filter P (f <$> l)) = f <$> head (filter P l).
Proof.
  intros Hf. induction l as [|x l IH]; [done|].
  rewrite fmap_cons, !filter_cons.
  destruct (decide (P x)) as [Hx|Hx].
  - rewrite decide_True by by apply Hf. done.
  - rewrite decide_False by (by rewrite Hf). exact IH.
Qed.

(** A status write does not change which campaign a lookup finds. *)
Lemma get_campaign_save_campaign w c id brand :
  is_Some (get_campaign (db w) id brand) →
  is_Some (get_campaign (db (save_campaign w c).2) id brand).
Proof.
  unfold get_campaign. simpl. rewrite head_filter_fmap.
  - intros [c0 ->]. simpl. eauto.
  - intros row. simpl. by destruct (decide _).
Qed.

Lemma check_limits_frame w c summary :
  brands (db (check_limits w c summary).2) = brands (db w)
  ∧ budget_summaries (db (check_limits w c summary).2) = budget_summaries (db w)
  ∧ ∀ id brand, is_Some (get_campaign (db w) id brand) →
                is_Some (get_campaign (db (check_limits w c summary).2) id brand).
Proof.
  unfold check_limits.
  destruct (_ || _); [destruct (bool_decide _)|]; simpl; try done.
  repeat split. intros id brand.
  apply (get_campaign_save_campaign w (set_status c PAUSED_BUDGET)).
Qed.





(** A worker left alone runs [record_spend]. *)
Lemma run_alone_record_spend w brand_id' campaign_id' amount' spend_datetime' :
  run_alone w (at_start brand_id' campaign_id' amount' spend_datetime')
  = (finished (record_spend w brand_id' campaign_id' amount' spend_datetime').1,
     (record_spend w brand_id' campaign_id' amount' spend_datetime').2).
Proof.
  unfold run_alone, record_spend. cbn [worker_step].
  destruct (get_brand (db w) brand_id') as [brand|]; [|done].
  destruct (get_campaign (db w) campaign_id' brand) as [campaign|]; [|done].
  cbn [worker_step].
  destruct (get_or_create_for_date _ brand _) as [s1 w1]. cbn [worker_step].
  destruct (update_daily_spend w1 s1 amount') as [s2 w2]. cbn [worker_step].
  destruct (update_monthly_spend w2 s2 amount') as [s3 w3]. cbn [worker_step].
  by destruct (check_limits w3 campaign s3).
Qed.

(** ** Spend endpoint *)


(** ** More on spend recording *)

Lemma get_brand_Some d id b :
  get_brand d id = Some b →
  b ∈ brands d ∧ brand_id b = id ∧ brand_is_active b = true.
Proof.
  unfold get_brand. intros H%head_Some_elem_of.
  apply list_elem_of_filter in H. tauto.
Qed.

Lemma get_campaign_Some d id brand c :
  get_campaign d id brand = Some c →
  c ∈ campaigns d ∧ campaign_id c = id
  ∧ brand_id (campaign_brand c) = brand_id brand
  ∧ campaign_is_active c = true.
Proof.
  unfold get_campaign. intros H%head_Some_elem_of.
  apply list_elem_of_filter in H. tauto.
Qed.


(** The summary row a successful [record_spend] starts from: the stored
    one, or the defaults of [get_or_create_for_date] computed after the
    spend record has been created. *)
Lemma record_spend_success w brand_id' campaign_id' amount' spend_datetime'
    brand campaign :
  get_brand (db w) brand_id' = Some brand →
  get_campaign (db w) campaign_id' brand = Some campaign →
  let spend_dt := default now spend_datetime' in
  let on := dt_date spend_dt in
  let r := {| record_brand := brand_id brand;
              record_campaign := campaign_id campaign;
              amount := amount'; spend_date := on; spend_datetime := spend_dt |} in
  let w1 := create_spend_record w r in
  let start :=
    match budget_summaries (db w) !! (brand_id brand, on) with
    | Some row => row
    | None => {| daily_spend := 0;
                 monthly_spend := _calculate_monthly_spend (db w1) brand on;
                 daily_remaining := daily_budget brand;
                 monthly_remaining := monthly_budget brand |}
    end in
  let final :=
    {| daily_spend := daily_spend start + amount';
       monthly_spend := monthly_spend start + amount';
       daily_remaining := daily_budget brand - (daily_spend start + amount');
       monthly_remaining := monthly_budget brand - (monthly_spend start + amount') |} in
  record_spend w brand_id' campaign_id' amount' spend_datetime'
  = check_limits
      (set_db w (set_budget_summaries (db w1)
                   (<[(brand_id brand, on) := final]> (budget_summaries (db w)))))
      campaign
      {| summary_brand := brand; summary_date := on; columns := final |}.
Proof.
  intros Hbrand Hcampaign spend_dt on r w1 start final.
  unfold record_spend. rewrite Hbrand, Hcampaign.
  fold spend_dt. fold on. fold r. fold w1.
  unfold get_or_create_for_date.
  change (budget_summaries (db w1)) with (budget_summaries (db w)).
  subst start final.
  destruct (budget_summaries (db w) !! (brand_id brand, on)) as [row|] eqn:Hrow;
    simpl; f_equal; unfold set_db, set_budget_summaries; simpl;
    f_equal; f_equal; apply map_eq; intros key;
    destruct (decide ((brand_id brand, on) = key)) as [<-|Hne].
  - by rewrite !lookup_alter_eq, lookup_insert_eq, Hrow.
  - by rewrite !lookup_alter_ne, lookup_insert_ne.
  - by rewrite !lookup_alter_eq, !lookup_insert_eq.
  - by rewrite !lookup_alter_ne, !lookup_insert_ne.
Qed.

Lemma total_amount_app l1 l2 :
  total_amount (l1 ++ l2) = total_amount l1 + total_amount l2.
Proof. unfold total_amount. induction l1 as [|r l1 IH]; simpl; lia. Qed.

Lemma _calculate_monthly_spend_append w r b target_date :
  _calculate_monthly_spend (db (create_spend_record w r)) b target_date
  = _calculate_monthly_spend (db w) b target_date
    + (if decide (in_month_to_date b target_date r) then amount r else 0).
Proof.
  rewrite !_calculate_monthly_spend_total. simpl.
  rewrite filter_app, total_amount_app. f_equal.
  rewrite filter_cons, filter_nil.
  destruct (decide (in_month_to_date b target_date r)); simpl; lia.
Qed.


Lemma check_limits_effect w c (s : BudgetSummary) :
  let exhausted := (daily_remaining s <=? 0) || (monthly_remaining s <=? 0) in
  check_limits w c s
  = (Success (daily_remaining s) (monthly_remaining s)
             (negb (bool_decide (status c = ACTIVE)) || exhausted),
     if bool_decide (status c = ACTIVE) && exhausted
     then (pause_for_budget w c).2 else w).
Proof.
  intros exhausted. unfold check_limits. fold exhausted.
  destruct exhausted; [destruct (bool_decide (status c = ACTIVE)) eqn:E|]; simpl.
  - done.
  - by rewrite E.
  - by rewrite andb_false_r, orb_false_r.
Qed.





(** ** More on the budget ledger *)

(** X5.  [get_or_create_for_date] run a second time returns the instance
    of the first run and writes nothing; the first run changes no row of
    another brand or date. *)
Theorem get_or_create_for_date_twice (w : World) (b : Brand) (target_date : date) :
  let '(summary, w1) := get_or_create_for_date w b target_date in
  get_or_create_for_date w1 b target_date = (summary, w1)
  ∧ ∀ key, key ≠ (brand_id b, target_date) →
           budget_summaries (db w1) !! key = budget_summaries (db w) !! key.
Proof.
  pose proof (get_or_create_lookup w b target_date) as Hrow.
  destruct (get_or_create_for_date w b target_date) as [summary w1] eqn:Hfirst.
  destruct Hrow as (Hrow & Hb & Hd). split.
  - unfold get_or_create_for_date at 1. rewrite Hrow.
    destruct summary as [sb sd cols]. simpl in *. by subst.
  - intros key Hne. unfold get_or_create_for_date in Hfirst.
    destruct (budget_summaries (db w) !! (brand_id b, target_date)).
    + by injection Hfirst as _ <-.
    + injection Hfirst as _ <-. simpl. by rewrite lookup_insert_ne.
Qed.

(** X6.  While no summary is stored for today [has_budget_remaining] is
    true; once [get_or_create_for_date] has created it,
    [has_budget_remaining] is true exactly when the daily budget is above
    zero and the month-to-date total of the ledger is below the monthly
    budget. *)
Theorem created_summary_decides_budget (w : World) (b : Brand) :
  budget_summaries (db w) !! (brand_id b, dt_date now) = None →
  has_budget_remaining (db w) b None = true
  ∧ has_budget_remaining (db (get_or_create_for_date w b (dt_date now)).2) b None
    = (0 <? daily_budget b)
      && (total_amount (filter (in_month_to_date b (dt_date now))
                               (spend_records (db w)))
          <? monthly_budget b).
Proof.
  intros Hnone. unfold has_budget_remaining, get_or_create_for_date. simpl.
  rewrite Hnone. split; [done|]. simpl. rewrite lookup_insert_eq. simpl.
  rewrite _calculate_monthly_spend_total. f_equal.
  - f_equal. lia.
  - destruct (Z.ltb_spec 0 (monthly_budget b - total_amount
                (filter (in_month_to_date b (dt_date now)) (spend_records (db w))))),
             (Z.ltb_spec (total_amount
                (filter (in_month_to_date b (dt_date now)) (spend_records (db w))))
                (monthly_budget b)); lia.
Qed.

(** *** Tasks that write statuses only *)

Lemma same_campaign_refl c : same_campaign c c.
Proof. by unfold same_campaign. Qed.

Lemma only_statuses_written_refl w : only_statuses_written w w.
Proof.
  repeat split. apply Forall_Forall2_diag, Forall_forall.
  intros. apply same_campaign_refl.
Qed.

Lemma only_statuses_written_trans w1 w2 w3 :
  only_statuses_written w1 w2 → only_statuses_written w2 w3 →
  only_statuses_written w1 w3.
Proof.
  intros (B1 & D1 & R1 & S1 & C1) (B2 & D2 & R2 & S2 & C2).
  repeat split; try congruence.
  eapply Forall2_trans; [|exact C1|exact C2].
  unfold same_campaign. intros x y z (?&?&?) (?&?&?). repeat split; congruence.
Qed.

Lemma save_campaign_only_statuses w c :
  only_statuses_written w (save_campaign w c).2.
Proof.
  repeat split. simpl. apply Forall2_fmap_r, Forall_Forall2_diag, Forall_forall.
  intros row _. simpl. unfold same_campaign. by destruct (decide _).
Qed.

Lemma activate_only_statuses w c : only_statuses_written w (activate w c).2.
Proof.
  unfold activate. destruct (can_run_now (db w) c None).
  - apply save_campaign_only_statuses.
  - apply only_statuses_written_refl.
Qed.

Lemma only_statuses_written_foldl {A} (body : World → A → World) (l : list A) w :
  (∀ w x, only_statuses_written w (body w x)) →
  only_statuses_written w (foldl body w l).
Proof.
  intros Hbody. revert w. induction l as [|x l IH]; intros w; simpl.
  - apply only_statuses_written_refl.
  - eapply only_statuses_written_trans; [apply Hbody | apply IH].
Qed.

Lemma dayparting_body_only_statuses w c :
  only_statuses_written w (dayparting_body w c).
Proof.
  unfold dayparting_body, pause_for_dayparting.
  repeat case_match; auto using only_statuses_written_refl,
    activate_only_statuses, save_campaign_only_statuses.
Qed.

Lemma status_body_only_statuses w c :
  only_statuses_written w (status_body w c).
Proof.
  unfold status_body, pause_for_budget.
  repeat case_match; auto using only_statuses_written_refl,
    activate_only_statuses, save_campaign_only_statuses.
Qed.

Lemma reactivate_body_only_statuses w c :
  only_statuses_written w (reactivate_body w c).
Proof.
  unfold reactivate_body. destruct (can_run_now (db w) c None).
  - apply activate_only_statuses.
  - apply only_statuses_written_refl.
Qed.

Lemma check_campaign_dayparting_only_statuses w :
  only_statuses_written w (check_campaign_dayparting w).
Proof. apply only_statuses_written_foldl, dayparting_body_only_statuses. Qed.

Lemma update_campaign_status_only_statuses w :
  only_statuses_written w (update_campaign_status w).
Proof. apply only_statuses_written_foldl, status_body_only_statuses. Qed.

(** X7.  The dayparting sweep and the budget sweep write nothing but
    campaign statuses: brands, schedules, spend records and budget
    summaries come out as they went in, and every campaign row keeps its
    place, id, brand and [is_active] switch. *)
Theorem sweeps_write_statuses_only (w : World) :
  only_statuses_written w (check_campaign_dayparting w)
  ∧ only_statuses_written w (update_campaign_status w).
Proof.
  split.
  - apply check_campaign_dayparting_only_statuses.
  - apply update_campaign_status_only_statuses.
Qed.

(** *** Loops that save campaigns fetched before the loop *)

Lemma NoDup_fmap_agree {A B} (f : A → B) (l : list A) x y :
  NoDup (f <$> l) → x ∈ l → y ∈ l → f x = f y → x = y.
Proof.
  induction l as [|a l IH]; intros Hnd Hx Hy Hf.
  - by apply elem_of_nil in Hx.
  - rewrite fmap_cons in Hnd. apply NoDup_cons in Hnd as [Hnotin Hnd].
    apply elem_of_cons in Hx as [->|Hx]; apply elem_of_cons in Hy as [->|Hy].
    + done.
    + destruct Hnotin. rewrite Hf. by apply list_elem_of_fmap_2.
    + destruct Hnotin. rewrite <- Hf. by apply list_elem_of_fmap_2.
    + by apply IH.
Qed.

Lemma same_campaign_ids (l l' : list Campaign) :
  Forall2 same_campaign l l' → campaign_id <$> l' = campaign_id <$> l.
Proof.
  induction 1 as [|c c' l l' Hcc _ IH]; [done|].
  destruct Hcc as (Hid & _). by rewrite !fmap_cons, Hid, IH.
Qed.

Lemma save_campaign_lookup_other w c i row :
  campaigns (db w) !! i = Some row →
  campaign_id row ≠ campaign_id c →
  campaigns (db (save_campaign w c).2) !! i = Some row.
Proof.
  intros Hi Hne. simpl. rewrite list_lookup_fmap, Hi. simpl.
  by rewrite decide_False.
Qed.

Lemma save_campaign_lookup_own w c i row :
  campaigns (db w) !! i = Some row →
  campaign_id row = campaign_id c →
  campaigns (db (save_campaign w c).2) !! i = Some (written row (status c)).
Proof.
  intros Hi Heq. simpl. rewrite list_lookup_fmap, Hi. simpl.
  by rewrite decide_True.
Qed.

(** A loop over campaigns fetched from the table, whose body saves at
    most the status of its campaign: with unique ids every listed row
    becomes what the body makes of it in the starting database, and every
    other row stays. *)
Lemma status_loop_rows (body : World → Campaign → World)
    (f : DB → Campaign → Campaign) (P : Campaign → Prop) :
  (∀ w c, only_statuses_written w (body w c)) →
  (∀ w c i row, campaigns (db w) !! i = Some row →
                campaign_id row ≠ campaign_id c →
                campaigns (db (body w c)) !! i = Some row) →
  (∀ w c i, P c → campaigns (db w) !! i = Some c →
            campaigns (db (body w c)) !! i = Some (f (db w) c)) →
  (∀ d d' c, budget_summaries d' = budget_summaries d →
             dayparting_schedules d' = dayparting_schedules d →
             f d' c = f d c) →
  ∀ l w, NoDup (campaign_id <$> campaigns (db w)) →
         NoDup l →
         (∀ c, c ∈ l → c ∈ campaigns (db w)) →
         (∀ c, c ∈ l → P c) →
         ∀ i r, campaigns (db w) !! i = Some r →
                campaigns (db (foldl body w l)) !! i
                = Some (if decide (r ∈ l) then f (db w) r else r).
Proof.
  intros Hframe Hother Hown Hf.
  induction l as [|x l IH]; intros w Hids Hnd Hsub HP i r Hi; [done|].
  apply NoDup_cons in Hnd as [Hx Hnd]. simpl.
  assert (HPx : P x) by (apply HP; left).
  assert (HP' : ∀ c, c ∈ l → P c) by (intros c Hc; apply HP; by right).
  pose proof (Hframe w x) as (_ & D & _ & S & C).
  assert (Hids' : NoDup (campaign_id <$> campaigns (db (body w x)))).
  { by rewrite (same_campaign_ids _ _ C). }
  assert (Hr : r ∈ campaigns (db w)) by by eapply list_elem_of_lookup_2.
  assert (Hxin : x ∈ campaigns (db w)) by (apply Hsub; left).
  assert (Hsub' : ∀ c, c ∈ l → c ∈ campaigns (db (body w x))).
  { intros c Hc.
    assert (Hcin : c ∈ campaigns (db w)) by (apply Hsub; by right).
    apply list_elem_of_lookup in Hcin as [j Hj].
    apply (list_elem_of_lookup_2 _ j), Hother; [done|].
    intros Heq.
    assert (c = x) as ->.
    { apply (NoDup_fmap_agree campaign_id (campaigns (db w)) c x Hids);
        [by eapply list_elem_of_lookup_2 | done | done]. }
    by destruct Hx. }
  destruct (decide (r = x)) as [->|Hrx].
  - rewrite decide_True by left.
    rewrite (IH _ Hids' Hnd Hsub' HP' i (f (db w) x) (Hown _ _ _ HPx Hi)).
    rewrite decide_False; [done|].
    intros Hin. pose proof (Hsub' _ Hin) as Hin'.
    assert (Hfx : f (db w) x ∈ campaigns (db (body w x))).
    { by eapply list_elem_of_lookup_2, Hown. }
    assert (Hidf : campaign_id (f (db w) x) = campaign_id x).
    { destruct (Forall2_lookup_l _ _ _ _ _ C Hi) as (c' & Hc' & Hid & _).
      rewrite (Hown _ _ _ HPx Hi) in Hc'. by injection Hc' as <-. }
    assert (Hin0 : f (db w) x ∈ campaigns (db w)) by (apply Hsub; by right).
    assert (f (db w) x = x) as Heq.
    { by apply (NoDup_fmap_agree campaign_id (campaigns (db w)) _ _ Hids). }
    by rewrite Heq in Hin.
  - assert (Hne : campaign_id r ≠ campaign_id x).
    { intros Heq. apply Hrx.
      by apply (NoDup_fmap_agree campaign_id (campaigns (db w)) _ _ Hids). }
    rewrite (IH _ Hids' Hnd Hsub' HP' i r (Hother _ _ _ _ Hi Hne)).
    destruct (decide (r ∈ l)) as [Hin|Hnin].
    + rewrite decide_True by by right. f_equal. by apply Hf.
    + rewrite decide_False; [done|].
      intros [->|Hin]%elem_of_cons; done.
Qed.

Lemma activate_lookup_other w c i row :
  campaigns (db w) !! i = Some row →
  campaign_id row ≠ campaign_id c →
  campaigns (db (activate w c).2) !! i = Some row.
Proof.
  intros Hi Hne. unfold activate. destruct (can_run_now (db w) c None); [|done].
  by apply save_campaign_lookup_other.
Qed.

Lemma budget_sweep_row_frame d d' c :
  budget_summaries d' = budget_summaries d →
  dayparting_schedules d' = dayparting_schedules d →
  budget_sweep_row d' c = budget_sweep_row d c.
Proof.
  intros S D. unfold budget_sweep_row.
  rewrite (has_budget_remaining_frame d' d _ _ S).
  by rewrite (is_within_dayparting_window_frame d' d c c _ D).
Qed.

Lemma dayparting_sweep_row_frame d d' c :
  budget_summaries d' = budget_summaries d →
  dayparting_schedules d' = dayparting_schedules d →
  dayparting_sweep_row d' c = dayparting_sweep_row d c.
Proof.
  intros S D. unfold dayparting_sweep_row.
  rewrite (has_budget_remaining_frame d' d _ _ S).
  by rewrite (is_within_dayparting_window_frame d' d c c _ D).
Qed.

Lemma status_body_other w c i row :
  campaigns (db w) !! i = Some row →
  campaign_id row ≠ campaign_id c →
  campaigns (db (status_body w c)) !! i = Some row.
Proof.
  intros Hi Hne. unfold status_body, pause_for_budget.
  repeat case_match; auto using activate_lookup_other, save_campaign_lookup_other.
Qed.

Lemma status_body_own w c i :
  campaign_is_active c = true →
  campaigns (db w) !! i = Some c →
  campaigns (db (status_body w c)) !! i = Some (budget_sweep_row (db w) c).
Proof.
  intros Hact Hi. unfold status_body, budget_sweep_row, pause_for_budget.
  rewrite (bool_decide_eq_true_2 _ Hact). cbv zeta.
  destruct (has_budget_remaining (db w) (campaign_brand c) None) eqn:Hb; simpl.
  - destruct (bool_decide (status c = PAUSED_BUDGET)); simpl; [|done].
    destruct (is_within_dayparting_window (db w) c None) eqn:Hin; [|done].
    unfold activate, can_run_now. rewrite Hact, Hb, Hin. simpl.
    by rewrite list_lookup_fmap, Hi; simpl; rewrite decide_True.
  - destruct (bool_decide (status c = ACTIVE)); simpl; [|done].
    by rewrite list_lookup_fmap, Hi; simpl; rewrite decide_True.
Qed.

Lemma dayparting_body_other w c i row :
  campaigns (db w) !! i = Some row →
  campaign_id row ≠ campaign_id c →
  campaigns (db (dayparting_body w c)) !! i = Some row.
Proof.
  intros Hi Hne. unfold dayparting_body, pause_for_dayparting.
  repeat case_match; auto using activate_lookup_other, save_campaign_lookup_other.
Qed.

Lemma dayparting_body_own w c i :
  campaign_is_active c = true →
  campaigns (db w) !! i = Some c →
  campaigns (db (dayparting_body w c)) !! i = Some (dayparting_sweep_row (db w) c).
Proof.
  intros Hact Hi. unfold dayparting_body, dayparting_sweep_row, pause_for_dayparting.
  rewrite (bool_decide_eq_true_2 _ Hact).
  destruct (is_within_dayparting_window (db w) c (Some now)) eqn:Hin.
  - destruct (bool_decide (status c = PAUSED_DAYPART)); simpl; [|done].
    destruct (has_budget_remaining (db w) (campaign_brand c) None) eqn:Hb; [|done].
    assert (Hin' : is_within_dayparting_window (db w) c None = true) by exact Hin.
    unfold activate, can_run_now. rewrite Hact, Hb, Hin'. simpl.
    by rewrite list_lookup_fmap, Hi; simpl; rewrite decide_True.
  - destruct (bool_decide (status c = ACTIVE)); simpl; [|done].
    by rewrite list_lookup_fmap, Hi; simpl; rewrite decide_True.
Qed.

Lemma DB_eq (d d' : DB) :
  brands d = brands d' → campaigns d = campaigns d' →
  dayparting_schedules d = dayparting_schedules d' →
  spend_records d = spend_records d' →
  budget_summaries d = budget_summaries d' → d = d'.
Proof. destruct d, d'. simpl. by intros -> -> -> -> ->. Qed.

Lemma filtered_rows (P : Campaign → Prop) `{!∀ c, Decision (P c)} (w : World) :
  NoDup (campaign_id <$> campaigns (db w)) →
  NoDup (filter P (campaigns (db w)))
  ∧ (∀ c, c ∈ filter P (campaigns (db w)) → c ∈ campaigns (db w))
  ∧ (∀ c, c ∈ filter P (campaigns (db w)) → P c).
Proof.
  intros Hids. split; [by apply NoDup_filter, (NoDup_fmap_1 campaign_id)|].
  split; intros c Hc; apply list_elem_of_filter in Hc; tauto.
Qed.

(** With unique ids the budget sweep is a row-by-row rewrite. *)
Lemma update_campaign_status_rows w :
  NoDup (campaign_id <$> campaigns (db w)) →
  campaigns (db (update_campaign_status w))
  = budget_sweep_row (db w) <$> campaigns (db w).
Proof.
  intros Hids. unfold update_campaign_status.
  set (P := fun c => campaign_is_active c = true
                     ∧ (status c = ACTIVE ∨ status c = PAUSED_BUDGET)).
  destruct (filtered_rows P w Hids) as (Hnd & Hsub & HP).
  apply list_eq. intros i. rewrite list_lookup_fmap.
  destruct (campaigns (db w) !! i) as [r|] eqn:Hi.
  - rewrite (status_loop_rows status_body budget_sweep_row
               (fun c => campaign_is_active c = true)
               status_body_only_statuses status_body_other status_body_own
               budget_sweep_row_frame _ w Hids Hnd Hsub
               (fun c Hc => proj1 (HP c Hc)) i r Hi).
    simpl. f_equal. destruct (decide _) as [|Hnot]; [done|].
    unfold budget_sweep_row.
    destruct (bool_decide (campaign_is_active r = true)) eqn:Hact; [|done].
    apply bool_decide_eq_true in Hact.
    assert (Hst : status r ≠ ACTIVE ∧ status r ≠ PAUSED_BUDGET).
    { split; intros Hs; apply Hnot, list_elem_of_filter;
        (split; [split; [done|tauto] | by eapply list_elem_of_lookup_2]). }
    destruct Hst as [H1 H2].
    by rewrite !(bool_decide_eq_false_2 _ H1), !(bool_decide_eq_false_2 _ H2),
      !andb_false_r.
  - simpl.
    pose proof (only_statuses_written_foldl status_body (filter P (campaigns (db w))) w
                  status_body_only_statuses) as (_ & _ & _ & _ & C).
    apply lookup_ge_None. rewrite <- (Forall2_length _ _ _ C).
    by apply lookup_ge_None.
Qed.

(** With unique ids the dayparting sweep is a row-by-row rewrite. *)
Lemma check_campaign_dayparting_rows w :
  NoDup (campaign_id <$> campaigns (db w)) →
  campaigns (db (check_campaign_dayparting w))
  = dayparting_sweep_row (db w) <$> campaigns (db w).
Proof.
  intros Hids. unfold check_campaign_dayparting.
  set (P := fun c => campaign_is_active c = true).
  destruct (filtered_rows P w Hids) as (Hnd & Hsub & HP).
  apply list_eq. intros i. rewrite list_lookup_fmap.
  destruct (campaigns (db w) !! i) as [r|] eqn:Hi.
  - rewrite (status_loop_rows dayparting_body dayparting_sweep_row P
               dayparting_body_only_statuses dayparting_body_other
               dayparting_body_own dayparting_sweep_row_frame
               _ w Hids Hnd Hsub HP i r Hi).
    simpl. f_equal. destruct (decide _) as [|Hnot]; [done|].
    unfold dayparting_sweep_row.
    destruct (bool_decide (campaign_is_active r = true)) eqn:Hact; [|done].
    apply bool_decide_eq_true in Hact. destruct Hnot.
    apply list_elem_of_filter. split; [done | by eapply list_elem_of_lookup_2].
  - simpl.
    pose proof (only_statuses_written_foldl dayparting_body
                  (filter P (campaigns (db w))) w
                  dayparting_body_only_statuses) as (_ & _ & _ & _ & C).
    apply lookup_ge_None. rewrite <- (Forall2_length _ _ _ C).
    by apply lookup_ge_None.
Qed.

(** X8.  With unique campaign ids, the budget sweep sets every
    switched-on [ACTIVE] campaign of a brand without remaining budget to
    [PAUSED_BUDGET], every switched-on [PAUSED_BUDGET] campaign of a
    brand with remaining budget that is inside its dayparting window to
    [ACTIVE], and leaves every other campaign row as it was. *)
Theorem budget_sweep_per_campaign (w : World) (i : nat) (r : Campaign) :
  NoDup (campaign_id <$> campaigns (db w)) →
  campaigns (db w) !! i = Some r →
  let has_budget := has_budget_remaining (db w) (campaign_brand r) None in
  let within := is_within_dayparting_window (db w) r None in
  ∃ r', campaigns (db (update_campaign_status w)) !! i = Some r'
    ∧ same_campaign r r'
    ∧ (campaign_is_active r = true → status r = ACTIVE → has_budget = false →
       status r' = PAUSED_BUDGET)
    ∧ (campaign_is_active r = true → status r = PAUSED_BUDGET →
       has_budget = true → within = true → status r' = ACTIVE)
    ∧ (¬ (campaign_is_active r = true
          ∧ ((status r = ACTIVE ∧ has_budget = false)
             ∨ (status r = PAUSED_BUDGET ∧ has_budget = true ∧ within = true))) →
       r' = r).
Proof.
  intros Hids Hi has_budget within.
  exists (budget_sweep_row (db w) r).
  split; [by rewrite update_campaign_status_rows, list_lookup_fmap, Hi|].
  unfold budget_sweep_row. fold has_budget. fold within.
  destruct (bool_decide (campaign_is_active r = true)) eqn:Hact.
  - apply bool_decide_eq_true in Hact.
    destruct has_budget, within, (status r) eqn:Hst; simpl;
      repeat split; try done; intros; try congruence; tauto.
  - apply bool_decide_eq_false in Hact.
    repeat split; try done; intros; tauto.
Qed.

(** X9.  With unique campaign ids, the dayparting sweep sets every
    switched-on [ACTIVE] campaign that is outside its dayparting window to
    [PAUSED_DAYPART], every switched-on [PAUSED_DAYPART] campaign that is
    inside its window and whose brand has remaining budget to [ACTIVE],
    and leaves every other campaign row as it was. *)
Theorem dayparting_sweep_per_campaign (w : World) (i : nat) (r : Campaign) :
  NoDup (campaign_id <$> campaigns (db w)) →
  campaigns (db w) !! i = Some r →
  let has_budget := has_budget_remaining (db w) (campaign_brand r) None in
  let within := is_within_dayparting_window (db w) r (Some now) in
  ∃ r', campaigns (db (check_campaign_dayparting w)) !! i = Some r'
    ∧ same_campaign r r'
    ∧ (campaign_is_active r = true → status r = ACTIVE → within = false →
       status r' = PAUSED_DAYPART)
    ∧ (campaign_is_active r = true → status r = PAUSED_DAYPART →
       within = true → has_budget = true → status r' = ACTIVE)
    ∧ (¬ (campaign_is_active r = true
          ∧ ((status r = ACTIVE ∧ within = false)
             ∨ (status r = PAUSED_DAYPART ∧ within = true ∧ has_budget = true))) →
       r' = r).
Proof.
  intros Hids Hi has_budget within.
  exists (dayparting_sweep_row (db w) r).
  split; [by rewrite check_campaign_dayparting_rows, list_lookup_fmap, Hi|].
  unfold dayparting_sweep_row. fold has_budget. fold within.
  destruct (bool_decide (campaign_is_active r = true)) eqn:Hact.
  - apply bool_decide_eq_true in Hact.
    destruct has_budget, within, (status r) eqn:Hst; simpl;
      repeat split; try done; intros; try congruence; tauto.
  - apply bool_decide_eq_false in Hact.
    repeat split; try done; intros; tauto.
Qed.

Lemma budget_sweep_row_twice d r :
  budget_sweep_row d (budget_sweep_row d r) = budget_sweep_row d r.
Proof.
  assert (Hw : ∀ s t, is_within_dayparting_window d (written r s) t
                      = is_within_dayparting_window d r t)
    by (intros; by apply is_within_dayparting_window_frame).
  unfold budget_sweep_row.
  destruct (bool_decide (campaign_is_active r = true)) eqn:Hact; [|by rewrite Hact].
  destruct (has_budget_remaining d (campaign_brand r) None) eqn:Hb,
    (bool_decide (status r = ACTIVE)) eqn:H1,
    (bool_decide (status r = PAUSED_BUDGET)) eqn:H2,
    (is_within_dayparting_window d r None) eqn:Hin;
    simpl; rewrite ?Hw, ?Hact, ?Hb, ?H1, ?H2, ?Hin; simpl;
    rewrite ?Hact, ?Hb, ?H1, ?H2, ?Hin; try done.
Qed.

Lemma dayparting_sweep_row_twice d r :
  dayparting_sweep_row d (dayparting_sweep_row d r) = dayparting_sweep_row d r.
Proof.
  assert (Hw : ∀ s t, is_within_dayparting_window d (written r s) t
                      = is_within_dayparting_window d r t)
    by (intros; by apply is_within_dayparting_window_frame).
  unfold dayparting_sweep_row.
  destruct (bool_decide (campaign_is_active r = true)) eqn:Hact; [|by rewrite Hact].
  destruct (has_budget_remaining d (campaign_brand r) None) eqn:Hb,
    (bool_decide (status r = ACTIVE)) eqn:H1,
    (bool_decide (status r = PAUSED_DAYPART)) eqn:H2,
    (is_within_dayparting_window d r (Some now)) eqn:Hin;
    simpl; rewrite ?Hw, ?Hact, ?Hb, ?H1, ?H2, ?Hin; simpl;
    rewrite ?Hact, ?Hb, ?H1, ?H2, ?Hin; try done.
Qed.

Lemma ids_of_rows (f : Campaign → Campaign) (l : list Campaign) :
  (∀ r, campaign_id (f r) = campaign_id r) →
  campaign_id <$> (f <$> l) = campaign_id <$> l.
Proof.
  intros Hf. rewrite <- list_fmap_compose. apply list_fmap_ext.
  intros i r _. apply Hf.
Qed.

(** X10.  With unique campaign ids, the budget sweep and the dayparting
    sweep are idempotent: a second run at the same time leaves the
    database as the first run left it. *)
Theorem sweeps_idempotent (w : World) :
  NoDup (campaign_id <$> campaigns (db w)) →
  db (update_campaign_status (update_campaign_status w))
  = db (update_campaign_status w)
  ∧ db (check_campaign_dayparting (check_campaign_dayparting w))
    = db (check_campaign_dayparting w).
Proof.
  intros Hids. split.
  - pose proof (update_campaign_status_only_statuses w) as (B & D & R & S & C).
    assert (Hids1 : NoDup (campaign_id <$> campaigns (db (update_campaign_status w)))).
    { by rewrite (same_campaign_ids _ _ C). }
    pose proof (update_campaign_status_only_statuses (update_campaign_status w))
      as (B2 & D2 & R2 & S2 & _).
    apply DB_eq; try done.
    rewrite (update_campaign_status_rows _ Hids1).
    rewrite (update_campaign_status_rows _ Hids).
    rewrite <- list_fmap_compose. apply list_fmap_ext. intros i r _. simpl.
    rewrite (budget_sweep_row_frame (db w) (db (update_campaign_status w)) _ S D).
    apply budget_sweep_row_twice.
  - pose proof (check_campaign_dayparting_only_statuses w) as (B & D & R & S & C).
    assert (Hids1 : NoDup (campaign_id <$> campaigns (db (check_campaign_dayparting w)))).
    { by rewrite (same_campaign_ids _ _ C). }
    pose proof (check_campaign_dayparting_only_statuses (check_campaign_dayparting w))
      as (B2 & D2 & R2 & S2 & _).
    apply DB_eq; try done.
    rewrite (check_campaign_dayparting_rows _ Hids1).
    rewrite (check_campaign_dayparting_rows _ Hids).
    rewrite <- list_fmap_compose. apply list_fmap_ext. intros i r _. simpl.
    rewrite (dayparting_sweep_row_frame (db w) (db (check_campaign_dayparting w)) _ S D).
    apply dayparting_sweep_row_twice.
Qed.

(** ** Monthly reset *)

Lemma get_or_create_effect w x on :
  let '(s, w1) := get_or_create_for_date w x on in
  summary_brand s = x
  ∧ summary_date s = on
  ∧ budget_summaries (db w1) !! (brand_id x, on) = Some (columns s)
  ∧ (∀ key, key ≠ (brand_id x, on) →
            budget_summaries (db w1) !! key = budget_summaries (db w) !! key)
  ∧ campaigns (db w1) = campaigns (db w)
  ∧ dayparting_schedules (db w1) = dayparting_schedules (db w)
  ∧ brands (db w1) = brands (db w)
  ∧ spend_records (db w1) = spend_records (db w)
  ∧ monthly_spend s = monthly_spend_before (db w) x on.
Proof.
  unfold get_or_create_for_date, monthly_spend_before.
  destruct (budget_summaries (db w) !! (brand_id x, on)) as [row|] eqn:Hrow; simpl.
  - by repeat split.
  - rewrite lookup_insert_eq. repeat split.
    intros key Hne. by rewrite lookup_insert_ne.
Qed.

Lemma monthly_spend_before_by_id d d' x b on :
  brand_id x = brand_id b →
  budget_summaries d' !! (brand_id b, on) = budget_summaries d !! (brand_id b, on) →
  spend_records d' = spend_records d →
  monthly_spend_before d' x on = monthly_spend_before d b on.
Proof.
  intros Hid Hrow Hrec. unfold monthly_spend_before, _calculate_monthly_spend,
    month_to_date. by rewrite Hid, Hrow, Hrec.
Qed.

Lemma reactivate_loop_only_statuses l w :
  only_statuses_written w (foldl reactivate_body w l).
Proof. apply only_statuses_written_foldl, reactivate_body_only_statuses. Qed.

(** One brand of the monthly reset: the world after it. *)
Lemma reset_monthly_body_unfold today w x :
  let '(s, w1) := get_or_create_for_date w x today in
  reset_monthly_body today w x
  = if 0 <? monthly_spend s
    then let w2 := set_db w1 (set_budget_summaries (db w1)
                      (alter (fun row => set_monthly row 0 (monthly_budget x - 0))
                             (brand_id x, today) (budget_summaries (db w1)))) in
         foldl reactivate_body w2 (paused_campaigns (db w2) x)
    else w1.
Proof.
  unfold reset_monthly_body.
  pose proof (get_or_create_effect w x today) as H.
  destruct (get_or_create_for_date w x today) as [s w1].
  destruct H as (Hb & Hd & _). destruct (0 <? monthly_spend s); [|done].
  unfold reset_monthly_spend, save. simpl. by rewrite Hb, Hd.
Qed.

Lemma reset_monthly_body_frame today w x :
  let w' := reset_monthly_body today w x in
  dayparting_schedules (db w') = dayparting_schedules (db w)
  ∧ brands (db w') = brands (db w)
  ∧ spend_records (db w') = spend_records (db w)
  ∧ Forall2 kept_or_activated (campaigns (db w)) (campaigns (db w'))
  ∧ ∀ key, key ≠ (brand_id x, today) →
           budget_summaries (db w') !! key = budget_summaries (db w) !! key.
Proof.
  pose proof (reset_monthly_body_unfold today w x) as Hbody.
  pose proof (get_or_create_effect w x today) as H.
  destruct (get_or_create_for_date w x today) as [s w1].
  destruct H as (_ & _ & _ & Hother & C & D & B & R & _).
  cbv zeta. rewrite Hbody. destruct (0 <? monthly_spend s); cbv zeta.
  - match goal with |- context [foldl reactivate_body ?w0 ?l] =>
      destruct (reactivate_loop_frame l w0) as (S2 & D2 & B2 & C2);
      destruct (reactivate_loop_only_statuses l w0) as (_ & _ & R2 & _) end.
    simpl in *. rewrite D2, B2, R2, S2, <- C. repeat split; try done.
    intros key Hne. rewrite lookup_alter_ne by done. by apply Hother.
  - rewrite C. repeat split; try done. apply only_activates_refl.
Qed.

Lemma reset_monthly_body_keeps_zero id w x :
  (∃ row, budget_summaries (db w) !! (id, dt_date now) = Some row ∧ monthly_spend row = 0) →
  ∃ row, budget_summaries (db (reset_monthly_body (dt_date now) w x)) !! (id, dt_date now)
         = Some row ∧ monthly_spend row = 0.
Proof.
  intros (row & Hrow & Hzero).
  destruct (decide (brand_id x = id)) as [<-|Hne].
  - unfold reset_monthly_body, get_or_create_for_date. rewrite Hrow. simpl.
    rewrite Hzero. simpl. by exists row.
  - destruct (reset_monthly_body_frame (dt_date now) w x) as (_ & _ & _ & _ & Hother).
    exists row. split; [|done]. rewrite Hother; [done | congruence].
Qed.

Lemma reset_monthly_body_keeps_settled id w x :
  monthly_settled id (dt_date now) w →
  monthly_settled id (dt_date now) (reset_monthly_body (dt_date now) w x).
Proof.
  intros [Hzero Hnone]. split; [by apply reset_monthly_body_keeps_zero|].
  destruct Hzero as (row & Hrow & Hzero).
  destruct (decide (brand_id x = id)) as [<-|Hne].
  - unfold reset_monthly_body, get_or_create_for_date. rewrite Hrow. simpl.
    rewrite Hzero. simpl. exact Hnone.
  - destruct (reset_monthly_body_frame (dt_date now) w x) as (D & _ & _ & C & Hother).
    intros c Hin Hb Hact Hst.
    destruct (kept_paused_source _ _ _ C Hin Hst) as (c0 & Hin0 & (Hid & Hbr & Ha & _) & Hst0).
    rewrite <- (Hnone c0 Hin0); [| congruence..].
    apply can_run_now_frame_key; try done.
    apply Hother. rewrite Hb. congruence.
Qed.

(** The brand whose monthly spend, stored or seeded, is above zero: the
    reset brings it to zero and the reactivation loop leaves no runnable
    campaign paused. *)
Lemma reset_monthly_body_settles w x :
  0 < monthly_spend_before (db w) x (dt_date now) →
  monthly_settled (brand_id x) (dt_date now) (reset_monthly_body (dt_date now) w x).
Proof.
  intros Hpos.
  pose proof (reset_monthly_body_unfold (dt_date now) w x) as Hbody.
  pose proof (get_or_create_effect w x (dt_date now)) as H.
  destruct (get_or_create_for_date w x (dt_date now)) as [s w1].
  destruct H as (_ & _ & Hrow & _ & _ & _ & _ & _ & Hspend).
  rewrite Hbody, Hspend. apply Z.ltb_lt in Hpos. rewrite Hpos. cbv zeta.
  match goal with |- monthly_settled _ _ (foldl _ ?w0 _) => set (w2 := w0) end.
  pose proof (reactivate_loop_frame (paused_campaigns (db w2) x) w2) as Hframe.
  pose proof Hframe as (S & D & B & C).
  split.
  - rewrite S. simpl. rewrite lookup_alter_eq, Hrow. simpl. eauto.
  - intros c Hin Hb Hact Hst.
    destruct (can_run_now _ c None) eqn:Hrun; [exfalso | done].
    destruct (kept_paused_source _ _ _ C Hin Hst)
      as (c0 & Hin0 & (Hid & Hbr & Ha & _) & Hst0).
    assert (Hrun0 : can_run_now (db w2) c0 None = true).
    { rewrite <- Hrun. symmetry. by apply can_run_now_frame. }
    assert (Hlisted : c0 ∈ paused_campaigns (db w2) x).
    { unfold paused_campaigns. apply list_elem_of_filter.
      split; [|done]. repeat split; congruence. }
    pose proof (reactivate_loop_activates _ _ _ Hlisted Hrun0 c Hin Hid) as Hactive.
    congruence.
Qed.

Lemma reset_monthly_body_zero w x :
  0 ≤ monthly_spend_before (db w) x (dt_date now) →
  ∃ row, budget_summaries (db (reset_monthly_body (dt_date now) w x))
           !! (brand_id x, dt_date now) = Some row
         ∧ monthly_spend row = 0.
Proof.
  intros Hnonneg.
  destruct (decide (0 < monthly_spend_before (db w) x (dt_date now))) as [Hpos|Hle].
  - by destruct (reset_monthly_body_settles w x Hpos).
  - pose proof (reset_monthly_body_unfold (dt_date now) w x) as Hbody.
    pose proof (get_or_create_effect w x (dt_date now)) as H.
    destruct (get_or_create_for_date w x (dt_date now)) as [s w1].
    destruct H as (_ & _ & Hrow & _ & _ & _ & _ & _ & Hspend).
    rewrite Hbody, Hspend.
    assert (Hz : monthly_spend_before (db w) x (dt_date now) = 0) by lia.
    rewrite Hz. simpl. exists (columns s). split; [done|]. congruence.
Qed.

Lemma reset_monthly_loop_keeps_settled id l w :
  monthly_settled id (dt_date now) w →
  monthly_settled id (dt_date now) (foldl (reset_monthly_body (dt_date now)) w l).
Proof.
  revert w. induction l as [|x l IH]; intros w Hw; simpl; [done|].
  by apply IH, reset_monthly_body_keeps_settled.
Qed.

Lemma reset_monthly_loop_keeps_zero id l w :
  (∃ row, budget_summaries (db w) !! (id, dt_date now) = Some row ∧ monthly_spend row = 0) →
  ∃ row, budget_summaries (db (foldl (reset_monthly_body (dt_date now)) w l))
           !! (id, dt_date now) = Some row
         ∧ monthly_spend row = 0.
Proof.
  revert w. induction l as [|x l IH]; intros w Hw; simpl; [done|].
  by apply IH, reset_monthly_body_keeps_zero.
Qed.

Lemma reset_monthly_body_other w x b :
  brand_id x ≠ brand_id b →
  monthly_spend_before (db (reset_monthly_body (dt_date now) w x)) b (dt_date now)
  = monthly_spend_before (db w) b (dt_date now).
Proof.
  intros Hne.
  destruct (reset_monthly_body_frame (dt_date now) w x) as (_ & _ & R & _ & Hother).
  apply monthly_spend_before_by_id; [done | | done].
  apply Hother. congruence.
Qed.

Lemma reset_monthly_loop_settles l w b :
  b ∈ l →
  0 < monthly_spend_before (db w) b (dt_date now) →
  monthly_settled (brand_id b) (dt_date now)
    (foldl (reset_monthly_body (dt_date now)) w l).
Proof.
  revert w. induction l as [|x l IH]; intros w Hin Hpos.
  - by apply elem_of_nil in Hin.
  - simpl. destruct (decide (brand_id x = brand_id b)) as [Heq|Hne].
    + apply reset_monthly_loop_keeps_settled. rewrite <- Heq.
      apply reset_monthly_body_settles.
      by rewrite (monthly_spend_before_by_id (db w) (db w) x b _ Heq).
    + apply elem_of_cons in Hin as [-> | Hin]; [done|].
      apply (IH _ Hin). by rewrite reset_monthly_body_other.
Qed.

Lemma reset_monthly_loop_zero l w b :
  b ∈ l →
  0 ≤ monthly_spend_before (db w) b (dt_date now) →
  ∃ row, budget_summaries (db (foldl (reset_monthly_body (dt_date now)) w l))
           !! (brand_id b, dt_date now) = Some row
         ∧ monthly_spend row = 0.
Proof.
  revert w. induction l as [|x l IH]; intros w Hin Hnonneg.
  - by apply elem_of_nil in Hin.
  - simpl. destruct (decide (brand_id x = brand_id b)) as [Heq|Hne].
    + apply reset_monthly_loop_keeps_zero. rewrite <- Heq.
      apply reset_monthly_body_zero.
      by rewrite (monthly_spend_before_by_id (db w) (db w) x b _ Heq).
    + apply elem_of_cons in Hin as [-> | Hin]; [done|].
      apply (IH _ Hin). by rewrite reset_monthly_body_other.
Qed.

Lemma reset_monthly_loop_only_activates l w :
  Forall2 kept_or_activated (campaigns (db w))
          (campaigns (db (foldl (reset_monthly_body (dt_date now)) w l))).
Proof.
  revert w. induction l as [|x l IH]; intros w; simpl.
  - apply only_activates_refl.
  - eapply only_activates_trans; [|apply IH].
    by destruct (reset_monthly_body_frame (dt_date now) w x) as (_ & _ & _ & C & _).
Qed.

(** X11.  After one run of [reset_monthly_budgets], for an active brand
    whose monthly spend for today (the stored one, or the month-to-date
    total of the ledger when no summary is stored) was not negative, a
    summary for today is stored with [monthly_spend = 0]; and when that
    monthly spend was above zero, each of the brand's campaigns that was
    switched on and [PAUSED_BUDGET] is, if [can_run_now] holds for it
    after the run, [ACTIVE]. *)
Theorem reset_monthly_budgets_spec (w : World) (b : Brand) :
  b ∈ brands (db w) →
  brand_is_active b = true →
  let today := dt_date now in
  let w' := reset_monthly_budgets w in
  (0 ≤ monthly_spend_before (db w) b today →
   ∃ row, budget_summaries (db w') !! (brand_id b, today) = Some row
          ∧ monthly_spend row = 0)
  ∧ (0 < monthly_spend_before (db w) b today →
     ∀ i c, campaigns (db w) !! i = Some c →
            brand_id (campaign_brand c) = brand_id b →
            campaign_is_active c = true →
            status c = PAUSED_BUDGET →
            ∃ c', campaigns (db w') !! i = Some c'
                  ∧ campaign_id c' = campaign_id c
                  ∧ (can_run_now (db w') c' None = true → status c' = ACTIVE)).
Proof.
  intros Hin Hactive today w'.
  assert (Hlisted : b ∈ filter (fun b => brand_is_active b = true) (brands (db w))).
  { by apply list_elem_of_filter. }
  split.
  - intros Hnonneg. by apply reset_monthly_loop_zero.
  - intros Hpos i c Hi Hb Hact Hst.
    pose proof (reset_monthly_loop_settles _ w b Hlisted Hpos) as [_ Hnone].
    pose proof (reset_monthly_loop_only_activates
                  (filter (fun b => brand_is_active b = true) (brands (db w))) w) as C.
    destruct (Forall2_lookup_l _ _ _ _ _ C Hi) as (c' & Hi' & (Hid & Hbr & Ha & Hs)).
    exists c'. split; [exact Hi'|]. split; [done|].
    intros Hrun. destruct Hs as [Hs|Hs]; [|done].
    assert (Hno : can_run_now (db w') c' None = false).
    { apply Hnone; [by eapply list_elem_of_lookup_2 | congruence..]. }
    congruence.
Qed.

(** ** Rows the tasks leave alone *)

Lemma reactivate_body_other w c i row :
  campaigns (db w) !! i = Some row →
  campaign_id row ≠ campaign_id c →
  campaigns (db (reactivate_body w c)) !! i = Some row.
Proof.
  intros Hi Hne. unfold reactivate_body.
  destruct (can_run_now (db w) c None); [|done]. by apply activate_lookup_other.
Qed.

Lemma reactivate_body_own w c i :
  True →
  campaigns (db w) !! i = Some c →
  campaigns (db (reactivate_body w c)) !! i = Some (reactivated_row (db w) c).
Proof.
  intros _ Hi. unfold reactivate_body, reactivated_row, activate.
  destruct (can_run_now (db w) c None) eqn:Hrun; [|done].
  by apply save_campaign_lookup_own.
Qed.

Lemma reactivated_row_frame d d' c :
  budget_summaries d' = budget_summaries d →
  dayparting_schedules d' = dayparting_schedules d →
  reactivated_row d' c = reactivated_row d c.
Proof.
  intros S D. unfold reactivated_row. by rewrite (can_run_now_frame d' d c c).
Qed.

(** The reactivation loop leaves every row that is not listed in place. *)
Lemma reactivate_loop_keeps_row w x i r :
  NoDup (campaign_id <$> campaigns (db w)) →
  campaigns (db w) !! i = Some r →
  campaign_is_active r = false ∨ status r ≠ PAUSED_BUDGET →
  campaigns (db (foldl reactivate_body w (paused_campaigns (db w) x))) !! i = Some r.
Proof.
  intros Hids Hi Hoff. unfold paused_campaigns.
  set (P := fun c => brand_id (campaign_brand c) = brand_id x
                     ∧ campaign_is_active c = true ∧ status c = PAUSED_BUDGET).
  destruct (filtered_rows P w Hids) as (Hnd & Hsub & HP).
  rewrite (status_loop_rows reactivate_body reactivated_row (fun _ => True)
             reactivate_body_only_statuses reactivate_body_other reactivate_body_own
             reactivated_row_frame _ w Hids Hnd Hsub (fun _ _ => I) i r Hi).
  rewrite decide_False; [done|].
  intros (_ & Hact & Hst)%HP. destruct Hoff; congruence.
Qed.

Lemma kept_or_activated_ids (l l' : list Campaign) :
  Forall2 kept_or_activated l l' → campaign_id <$> l' = campaign_id <$> l.
Proof.
  induction 1 as [|c c' l l' Hcc _ IH]; [done|].
  destruct Hcc as (Hid & _). by rewrite !fmap_cons, Hid, IH.
Qed.

Lemma reset_daily_body_unfold today w x :
  let '(s, w1) := get_or_create_for_date w x today in
  reset_daily_body today w x
  = if 0 <? daily_spend s
    then let w2 := set_db w1 (set_budget_summaries (db w1)
                      (alter (fun row => set_daily row 0 (daily_budget x - 0))
                             (brand_id x, today) (budget_summaries (db w1)))) in
         foldl reactivate_body w2 (paused_campaigns (db w2) x)
    else w1.
Proof.
  unfold reset_daily_body.
  pose proof (get_or_create_effect w x today) as H.
  destruct (get_or_create_for_date w x today) as [s w1].
  destruct H as (Hb & Hd & _). destruct (0 <? daily_spend s); [|done].
  unfold reset_daily_spend, save. simpl. by rewrite Hb, Hd.
Qed.

Lemma reset_daily_body_keeps_row today w x i r :
  NoDup (campaign_id <$> campaigns (db w)) →
  campaigns (db w) !! i = Some r →
  campaign_is_active r = false ∨ status r ≠ PAUSED_BUDGET →
  campaigns (db (reset_daily_body today w x)) !! i = Some r.
Proof.
  intros Hids Hi Hoff.
  pose proof (reset_daily_body_unfold today w x) as Hbody.
  pose proof (get_or_create_effect w x today) as H.
  destruct (get_or_create_for_date w x today) as [s w1].
  destruct H as (_ & _ & _ & _ & C & _).
  rewrite Hbody. destruct (0 <? daily_spend s); cbv zeta; [|by rewrite C].
  apply reactivate_loop_keeps_row; [| |done]; simpl; by rewrite C.
Qed.

Lemma reset_monthly_body_keeps_row today w x i r :
  NoDup (campaign_id <$> campaigns (db w)) →
  campaigns (db w) !! i = Some r →
  campaign_is_active r = false ∨ status r ≠ PAUSED_BUDGET →
  campaigns (db (reset_monthly_body today w x)) !! i = Some r.
Proof.
  intros Hids Hi Hoff.
  pose proof (reset_monthly_body_unfold today w x) as Hbody.
  pose proof (get_or_create_effect w x today) as H.
  destruct (get_or_create_for_date w x today) as [s w1].
  destruct H as (_ & _ & _ & _ & C & _).
  rewrite Hbody. destruct (0 <? monthly_spend s); cbv zeta; [|by rewrite C].
  apply reactivate_loop_keeps_row; [| |done]; simpl; by rewrite C.
Qed.

Lemma reset_loop_keeps_row (body : World → Brand → World) l w i r :
  (∀ w x, Forall2 kept_or_activated (campaigns (db w)) (campaigns (db (body w x)))) →
  (∀ w x, NoDup (campaign_id <$> campaigns (db w)) →
          campaigns (db w) !! i = Some r →
          campaigns (db (body w x)) !! i = Some r) →
  NoDup (campaign_id <$> campaigns (db w)) →
  campaigns (db w) !! i = Some r →
  campaigns (db (foldl body w l)) !! i = Some r.
Proof.
  intros Hkept Hkeeps. revert w.
  induction l as [|x l IH]; intros w Hids Hi; simpl; [done|].
  apply IH; [|by apply Hkeeps].
  by rewrite (kept_or_activated_ids _ _ (Hkept w x)).
Qed.

(** X12.  With unique campaign ids, a campaign whose [is_active] switch is
    off, or whose status is [INACTIVE], is left exactly as it is by the
    dayparting sweep, the budget sweep, the daily and the monthly reset
    and by [record_spend]. *)
Theorem switched_off_campaign_untouched (w : World) (i : nat) (r : Campaign) :
  NoDup (campaign_id <$> campaigns (db w)) →
  campaigns (db w) !! i = Some r →
  campaign_is_active r = false ∨ status r = INACTIVE →
  campaigns (db (check_campaign_dayparting w)) !! i = Some r
  ∧ campaigns (db (update_campaign_status w)) !! i = Some r
  ∧ campaigns (db (reset_daily_budgets w)) !! i = Some r
  ∧ campaigns (db (reset_monthly_budgets w)) !! i = Some r
  ∧ ∀ brand_id' campaign_id' amount' spend_datetime',
      campaigns (db (record_spend w brand_id' campaign_id' amount'
                                  spend_datetime').2) !! i = Some r.
Proof.
  intros Hids Hi Hoff.
  assert (Hoff' : campaign_is_active r = false ∨ status r ≠ PAUSED_BUDGET).
  { destruct Hoff as [?|Hst]; [by left | right; congruence]. }
  split; [|split; [|split; [|split]]].
  - rewrite (check_campaign_dayparting_rows _ Hids), list_lookup_fmap, Hi. simpl.
    f_equal. unfold dayparting_sweep_row.
    destruct Hoff as [Hact|Hst].
    + by rewrite bool_decide_eq_false_2 by congruence.
    + rewrite Hst. by repeat case_match.
  - rewrite (update_campaign_status_rows _ Hids), list_lookup_fmap, Hi. simpl.
    f_equal. unfold budget_sweep_row.
    destruct Hoff as [Hact|Hst].
    + by rewrite bool_decide_eq_false_2 by congruence.
    + rewrite Hst. simpl. rewrite !andb_false_r. by repeat case_match.
  - apply reset_loop_keeps_row; [| |done..].
    + intros w0 x. by destruct (reset_daily_body_frame (dt_date now) w0 x) as (_ & _ & C & _).
    + intros w0 x Hids0 Hi0. by apply reset_daily_body_keeps_row.
  - apply reset_loop_keeps_row; [| |done..].
    + intros w0 x.
      by destruct (reset_monthly_body_frame (dt_date now) w0 x) as (_ & _ & _ & C & _).
    + intros w0 x Hids0 Hi0. by apply reset_monthly_body_keeps_row.
  - intros brand_id' campaign_id' amount' spend_datetime'.
    destruct (get_brand (db w) brand_id') as [brand|] eqn:Hbrand;
      [|unfold record_spend; by rewrite Hbrand].
    destruct (get_campaign (db w) campaign_id' brand) as [campaign|] eqn:Hcampaign;
      [|unfold record_spend; by rewrite Hbrand, Hcampaign].
    rewrite (record_spend_success _ _ _ _ _ _ _ Hbrand Hcampaign).
    rewrite check_limits_effect. cbn [snd].
    destruct (bool_decide (status campaign = ACTIVE)) eqn:Hst; [|done].
    destruct (_ || _); [|done]. cbn [andb].
    apply save_campaign_lookup_other; [done|].
    destruct (get_campaign_Some _ _ _ _ Hcampaign) as (Hc & _ & _ & Hcact).
    apply bool_decide_eq_true in Hst. intros Heq.
    assert (r = campaign) as ->.
    { apply (NoDup_fmap_agree campaign_id (campaigns (db w)) _ _ Hids);
        [by eapply list_elem_of_lookup_2 | done | done]. }
    destruct Hoff; congruence.
Qed.

(** ** The stored equations across whole tasks *)

Lemma stored_consistent_frame w w' :
  brands (db w') = brands (db w) →
  budget_summaries (db w') = budget_summaries (db w) →
  stored_consistent w → stored_consistent w'.
Proof.
  intros B S Hinv b on row Hb Hrow. rewrite B in Hb. rewrite S in Hrow.
  by apply (Hinv b on row).
Qed.

Lemma brand_current_frame w w' b :
  brands (db w') = brands (db w) → brand_current w b → brand_current w' b.
Proof. intros B Hcur b' Hb'. rewrite B in Hb'. by apply Hcur. Qed.

Lemma only_statuses_keep_consistent w w' :
  only_statuses_written w w' → stored_consistent w → stored_consistent w'.
Proof. intros (B & _ & _ & S & _). by apply stored_consistent_frame. Qed.

Lemma record_spend_keeps_consistent w brand_id' campaign_id' amount' spend_datetime' :
  brands_agree w → stored_consistent w →
  stored_consistent
    (record_spend w brand_id' campaign_id' amount' spend_datetime').2.
Proof.
  intros Hagree Hinv.
  destruct (get_brand (db w) brand_id') as [brand|] eqn:Hbrand;
    [|unfold record_spend; by rewrite Hbrand].
  destruct (get_campaign (db w) campaign_id' brand) as [campaign|] eqn:Hcampaign;
    [|unfold record_spend; by rewrite Hbrand, Hcampaign].
  rewrite (record_spend_success _ _ _ _ _ _ _ Hbrand Hcampaign).
  match goal with |- context [check_limits ?w0 ?c0 ?s0] =>
    destruct (check_limits_frame w0 c0 s0) as (B & S & _);
    apply (stored_consistent_frame w0 _ B S) end.
  destruct (get_brand_Some _ _ _ Hbrand) as (Hin & _ & _).
  intros b on row Hb. simpl in Hb |- *.
  destruct (decide ((brand_id brand, dt_date (default now spend_datetime'))
                    = (brand_id b, on))) as [Heq|Hne].
  - rewrite Heq, lookup_insert_eq. intros [= <-].
    injection Heq as Hid _.
    destruct (Hagree brand Hin b Hb (eq_sym Hid)) as [Hd Hm].
    unfold consistent. simpl. lia.
  - rewrite lookup_insert_ne by done. by apply Hinv.
Qed.

Lemma reset_daily_body_keeps_consistent today w x :
  brand_current w x → stored_consistent w →
  stored_consistent (reset_daily_body today w x)
  ∧ brands (db (reset_daily_body today w x)) = brands (db w).
Proof.
  intros Hcur Hinv.
  pose proof (get_or_create_stored w x today Hinv Hcur) as Hinv1.
  pose proof (reset_daily_body_unfold today w x) as Hbody.
  pose proof (get_or_create_effect w x today) as H.
  destruct (get_or_create_for_date w x today) as [s w1].
  destruct H as (Hsb & Hsd & _ & _ & _ & _ & B & _). simpl in Hinv1.
  rewrite Hbody. destruct (0 <? daily_spend s); cbv zeta; [|done].
  match goal with |- context [foldl reactivate_body ?w0 ?l] =>
    destruct (reactivate_loop_only_statuses l w0) as (B2 & _ & _ & S2 & _);
    set (w2 := w0) in * end.
  split; [|by rewrite B2].
  apply (stored_consistent_frame w2 _ B2 S2).
  pose proof (save_daily_stored w1
                (set_columns s (set_daily s 0 (daily_remaining s))) Hinv1) as Hsave.
  unfold save in Hsave. simpl in Hsave. rewrite Hsb, Hsd in Hsave.
  apply Hsave. by apply (brand_current_frame w).
Qed.

Lemma reset_monthly_body_keeps_consistent today w x :
  brand_current w x → stored_consistent w →
  stored_consistent (reset_monthly_body today w x)
  ∧ brands (db (reset_monthly_body today w x)) = brands (db w).
Proof.
  intros Hcur Hinv.
  pose proof (get_or_create_stored w x today Hinv Hcur) as Hinv1.
  pose proof (reset_monthly_body_unfold today w x) as Hbody.
  pose proof (get_or_create_effect w x today) as H.
  destruct (get_or_create_for_date w x today) as [s w1].
  destruct H as (Hsb & Hsd & _ & _ & _ & _ & B & _). simpl in Hinv1.
  rewrite Hbody. destruct (0 <? monthly_spend s); cbv zeta; [|done].
  match goal with |- context [foldl reactivate_body ?w0 ?l] =>
    destruct (reactivate_loop_only_statuses l w0) as (B2 & _ & _ & S2 & _);
    set (w2 := w0) in * end.
  split; [|by rewrite B2].
  apply (stored_consistent_frame w2 _ B2 S2).
  pose proof (save_monthly_stored w1
                (set_columns s (set_monthly s 0 (monthly_remaining s))) Hinv1) as Hsave.
  unfold save in Hsave. simpl in Hsave. rewrite Hsb, Hsd in Hsave.
  apply Hsave. by apply (brand_current_frame w).
Qed.

Lemma reset_loop_keeps_consistent (body : World → Brand → World) l w :
  (∀ w x, brand_current w x → stored_consistent w →
          stored_consistent (body w x) ∧ brands (db (body w x)) = brands (db w)) →
  (∀ x, x ∈ l → brand_current w x) →
  stored_consistent w → stored_consistent (foldl body w l).
Proof.
  intros Hbody. revert w. induction l as [|x l IH]; intros w Hcur Hinv; [done|].
  simpl. destruct (Hbody w x) as [Hinv1 B]; [apply Hcur; left | done |].
  apply IH; [|done].
  intros y Hy. apply (brand_current_frame w); [done|]. apply Hcur. by right.
Qed.

(** X13.  When brand rows that share an id share their budgets and every
    stored summary row has both equations
    ([remaining + spend = budget]), then every stored row still has them
    after [record_spend], after either reset and after either sweep. *)
Theorem tasks_keep_summaries_consistent (w : World) :
  brands_agree w →
  stored_consistent w →
  (∀ brand_id' campaign_id' amount' spend_datetime',
     stored_consistent
       (record_spend w brand_id' campaign_id' amount' spend_datetime').2)
  ∧ stored_consistent (reset_daily_budgets w)
  ∧ stored_consistent (reset_monthly_budgets w)
  ∧ stored_consistent (check_campaign_dayparting w)
  ∧ stored_consistent (update_campaign_status w).
Proof.
  intros Hagree Hinv.
  assert (Hlisted : ∀ x, x ∈ filter (fun b => brand_is_active b = true) (brands (db w)) →
                         brand_current w x).
  { intros x Hx. apply list_elem_of_filter in Hx as [_ Hx]. by apply Hagree. }
  split; [|split; [|split; [|split]]].
  - intros. by apply record_spend_keeps_consistent.
  - apply reset_loop_keeps_consistent; [|done..].
    intros. by apply reset_daily_body_keeps_consistent.
  - apply reset_loop_keeps_consistent; [|done..].
    intros. by apply reset_monthly_body_keeps_consistent.
  - apply (only_statuses_keep_consistent w); [|done].
    apply check_campaign_dayparting_only_statuses.
  - apply (only_statuses_keep_consistent w); [|done].
    apply update_campaign_status_only_statuses.
Qed.

(** X14.  The month-to-date total [_calculate_monthly_spend] seeds a
    summary with is additive over the ledger: creating a spend record
    raises it by the record's amount when the record is of that brand and
    dated in the month of the date, up to and including the date, and
    leaves it unchanged otherwise. *)
Theorem seed_follows_the_ledger (w : World) (r : SpendRecord) (b : Brand)
    (target_date : date) :
  _calculate_monthly_spend (db (create_spend_record w r)) b target_date
  = _calculate_monthly_spend (db w) b target_date
    + (if decide (in_month_to_date b target_date r) then amount r else 0).
Proof. apply _calculate_monthly_spend_append. Qed.

(** ** Toggle endpoint *)

(** X15.  A toggle request that is answered with [success = false] (an
    unknown action, a campaign that does not exist or is switched off, an
    activation that [can_run_now] refuses) changes nothing. *)
Theorem toggle_rejected_changes_nothing (w : World) (campaign_id' : Z)
    (action : Action) :
  let '(response, w') := CampaignToggleView_post w campaign_id' action in
  success response = false → w' = w.
Proof.
  unfold CampaignToggleView_post.
  destruct action; try done;
    destruct (head _) as [campaign|]; try done.
  by destruct (can_run_now (db w) campaign None).
Qed.

(** X16.  For a campaign that exists and is switched on, a deactivate
    request always succeeds and leaves every row with its id [INACTIVE];
    an activate request succeeds exactly when [can_run_now] holds, and
    then leaves every row with its id [ACTIVE].  Without such a campaign
    both are answered with 404. *)
Theorem toggle_outcome (w : World) (campaign_id' : Z) :
  let found :=
    head (filter (fun c => campaign_id c = campaign_id' ∧ campaign_is_active c = true)
                 (campaigns (db w))) in
  let rows_are (w' : World) (s : Status) :=
    ∀ c', c' ∈ campaigns (db w') → campaign_id c' = campaign_id' → status c' = s in
  match found with
  | None =>
      http_status (CampaignToggleView_post w campaign_id' action_activate).1 = 404
      ∧ http_status (CampaignToggleView_post w campaign_id' action_deactivate).1 = 404
  | Some campaign =>
      (let '(response, w') := CampaignToggleView_post w campaign_id' action_deactivate in
       http_status response = 200 ∧ rows_are w' INACTIVE)
      ∧ (let '(response, w') := CampaignToggleView_post w campaign_id' action_activate in
         success response = can_run_now (db w) campaign None
         ∧ (success response = true → http_status response = 200 ∧ rows_are w' ACTIVE)
         ∧ (success response = false → http_status response = 400))
  end.
Proof.
  intros found rows_are. unfold CampaignToggleView_post. fold found.
  destruct found as [campaign|] eqn:Hfound; [|done].
  assert (Hid : campaign_id campaign = campaign_id').
  { apply head_Some_elem_of, list_elem_of_filter in Hfound. tauto. }
  assert (Hrows : ∀ s, rows_are (save_campaign w (set_status campaign s)).2 s).
  { intros s c' (row0 & -> & _)%list_elem_of_fmap. simpl.
    destruct (decide _) as [|Hne]; simpl; [done|]. intros Heq. destruct Hne. congruence. }
  split; [split; [done | apply Hrows]|].
  destruct (can_run_now (db w) campaign None) eqn:Hrun; simpl.
  - split; [done|]. split; [|done]. intros _. split; [done|].
    unfold activate. rewrite Hrun. apply Hrows.
  - split; [done|]. split; done.
Qed.

(** ** Status views *)

Lemma summary_of_today_is_get_or_create w b :
  summary_of_today w b = get_or_create_for_date w b (dt_date now).
Proof.
  unfold summary_of_today, get_or_create_for_date.
  by destruct (budget_summaries (db w) !! _).
Qed.

(** X17.  [CampaignStatusView.get] answers 404 and writes nothing when no
    switched-on campaign has the id.  Otherwise it writes what
    [get_or_create_for_date] writes for the campaign's brand and today
    (nothing when that summary is stored), also when it answers 500; and
    the data of a 200 answer hold together: the campaign is switched on,
    [has_budget_remaining] is true exactly when both reported remaining
    budgets are above zero, and [can_run_now] is [has_budget_remaining]
    and [is_within_dayparting]. *)
Theorem campaign_status_report (w : World) (campaign_id' : Z) :
  let '(response, w') := CampaignStatusView_get w campaign_id' in
  match head (filter (fun c => campaign_id c = campaign_id'
                               ∧ campaign_is_active c = true)
                     (campaigns (db w))) with
  | None => response = status_not_found ∧ w' = w
  | Some campaign =>
      w' = (get_or_create_for_date w (campaign_brand campaign) (dt_date now)).2
      ∧ response ≠ status_not_found
      ∧ ∀ data, response = status_ok data →
          cd_status data = status campaign
          ∧ cd_is_active data = true
          ∧ cd_has_budget_remaining data
            = (0 <? cd_daily_remaining data) && (0 <? cd_monthly_remaining data)
          ∧ cd_can_run_now data
            = cd_has_budget_remaining data && cd_is_within_dayparting data
  end.
Proof.
  unfold CampaignStatusView_get.
  destruct (head _) as [campaign|] eqn:Hfound; [|done].
  assert (Hact : campaign_is_active campaign = true).
  { apply head_Some_elem_of, list_elem_of_filter in Hfound. tauto. }
  rewrite summary_of_today_is_get_or_create.
  pose proof (get_or_create_lookup w (campaign_brand campaign) (dt_date now)) as Hrow.
  destruct (get_or_create_for_date w (campaign_brand campaign) (dt_date now))
    as [summary w1].
  destruct Hrow as (Hrow & _ & _).
  destruct (mapM schedule_data _) as [schedules|]; (split; [done|]); (split; [done|]);
    intros data [= <-]; simpl.
  repeat split; try done.
  - unfold has_budget_remaining. simpl. by rewrite Hrow.
  - unfold can_run_now. rewrite Hact. simpl.
    by destruct (has_budget_remaining (db w1) (campaign_brand campaign) None).
Qed.

Lemma count_status_partition (d : DB) (b : Brand) :
  length (filter (fun c => brand_id (campaign_brand c) = brand_id b
                           ∧ campaign_is_active c = true)
                 (campaigns d))
  = (count_status d b ACTIVE + count_status d b PAUSED_BUDGET
     + count_status d b PAUSED_DAYPART + count_status d b INACTIVE)%nat.
Proof.
  unfold count_status. induction (campaigns d) as [|c l IH]; [done|].
  rewrite !filter_cons.
  destruct (decide (brand_id (campaign_brand c) = brand_id b
                    ∧ campaign_is_active c = true)) as [[H1 H2]|HP].
  - destruct (status c) eqn:Hst;
      repeat (destruct (decide _) as [(? & ? & ?)|?]; try congruence; try tauto);
      simpl; lia.
  - repeat (destruct (decide _) as [(? & ? & ?)|?]; try tauto).
Qed.

(** X18.  [BrandStatusView.get] answers 404 and writes nothing when no
    active brand has the id, and 500 when a budget of the brand is zero.
    In a 200 answer the campaign counts add up: the total of switched-on
    campaigns is the sum of the four counts by status; and
    [has_budget_remaining] is true exactly when both reported remaining
    budgets are above zero. *)
Theorem brand_status_report (w : World) (brand_id' : Z) :
  let '(response, w') := BrandStatusView_get w brand_id' in
  match get_brand (db w) brand_id' with
  | None => response = status_not_found ∧ w' = w
  | Some brand =>
      w' = (get_or_create_for_date w brand (dt_date now)).2
      ∧ (response = status_error ↔ daily_budget brand = 0 ∨ monthly_budget brand = 0)
      ∧ ∀ data, response = status_ok data →
          bd_total data
          = (bd_active data + bd_paused_budget data
             + bd_paused_daypart data + bd_inactive data)%nat
          ∧ bd_has_budget_remaining data
            = (0 <? bd_daily_remaining data) && (0 <? bd_monthly_remaining data)
  end.
Proof.
  unfold BrandStatusView_get.
  destruct (get_brand (db w) brand_id') as [brand|]; [|done].
  rewrite summary_of_today_is_get_or_create.
  pose proof (get_or_create_lookup w brand (dt_date now)) as Hrow.
  destruct (get_or_create_for_date w brand (dt_date now)) as [summary w1].
  destruct Hrow as (Hrow & _ & _).
  destruct (Z.eqb_spec (daily_budget brand) 0) as [Hd|Hd];
    [|destruct (Z.eqb_spec (monthly_budget brand) 0) as [Hm|Hm]]; simpl.
  { split; [done|]. split; [split; [intros _; by left | done] | intros data [=]]. }
  { split; [done|]. split; [split; [intros _; by right | done] | intros data [=]]. }
  split; [done|]. split; [split; [intros [=] | intros [?|?]; done] |].
  intros data [= <-]. simpl. split.
  - apply count_status_partition.
  - unfold has_budget_remaining. simpl. by rewrite Hrow.
Qed.

(** ** Retention and schedule validation *)

Lemma date_leb_trans a b c :
  date_leb a b = true → date_leb b c = true → date_leb a c = true.
Proof.
  unfold date_leb.
  rewrite !orb_true_iff, !andb_true_iff, !orb_true_iff, !andb_true_iff.
  rewrite !Z.ltb_lt, !Z.eqb_eq, !Z.leb_le. lia.
Qed.

Lemma date_ltb_false a b : date_ltb a b = false ↔ date_leb b a = true.
Proof. unfold date_ltb. by destruct (date_leb b a). Qed.

(** X19.  [cleanup_old_spend_records] deletes exactly the spend records
    dated before the cutoff (today minus the days to keep) and writes
    nothing else: budget summaries, campaigns, schedules and brands stay.
    The month-to-date total that seeds a summary is unchanged for every
    date whose month starts on or after the cutoff. *)
Theorem cleanup_spares_recent_months (w : World) (days_to_keep : Z) :
  let cutoff_date := timedelta_before (dt_date now) days_to_keep in
  let w' := cleanup_old_spend_records w days_to_keep in
  (∀ r, r ∈ spend_records (db w') ↔
        r ∈ spend_records (db w) ∧ date_leb cutoff_date (spend_date r) = true)
  ∧ budget_summaries (db w') = budget_summaries (db w)
  ∧ campaigns (db w') = campaigns (db w)
  ∧ dayparting_schedules (db w') = dayparting_schedules (db w)
  ∧ brands (db w') = brands (db w)
  ∧ ∀ b target_date,
      date_leb cutoff_date (replace_day target_date 1) = true →
      _calculate_monthly_spend (db w') b target_date
      = _calculate_monthly_spend (db w) b target_date.
Proof.
  intros cutoff_date w'. subst w'. unfold cleanup_old_spend_records. fold cutoff_date.
  simpl. split.
  { intros r. rewrite list_elem_of_filter, date_ltb_false. tauto. }
  do 4 (split; [done|]).
  intros b target_date Hcut.
  unfold _calculate_monthly_spend, month_to_date. simpl.
  rewrite list_filter_filter.
  rewrite (list_filter_iff _
             (fun r => record_brand r = brand_id b
                       ∧ date_leb (replace_day target_date 1) (spend_date r) = true
                       ∧ date_leb (spend_date r) target_date = true)); [done|].
  intros r. rewrite date_ltb_false. split; [tauto|].
  intros (Hb & Hfrom & Hto). repeat split; try done.
  by apply (date_leb_trans _ (replace_day target_date 1)).
Qed.

(** X20.  A schedule that [clean] rejects (its start hour is after its end
    hour) admits no hour: a campaign all of whose schedules are rejected
    by [clean] is never within its dayparting window. *)
Theorem rejected_schedules_never_open (d : DB) (c : Campaign)
    (check_time : option datetime) :
  (∀ s, s ∈ dayparting_schedules d → schedule_campaign s = campaign_id c →
        clean s ≠ None) →
  is_within_dayparting_window d c check_time = false.
Proof.
  intros Hrejected.
  destruct (is_within_dayparting_window d c check_time) eqn:Hwithin; [|done].
  unfold is_within_dayparting_window in Hwithin.
  destruct (schedules_for d c _) as [|s0 rest] eqn:Hfor; [done|].
  apply window_loop_true in Hwithin as (s & Hin & Hhours).
  rewrite <- Hfor in Hin. apply elem_of_schedules_for in Hin as (Hs & Hc & _).
  destruct (Hrejected s Hs Hc). unfold clean.
  destruct (Z.gtb_spec (start_hour s) (end_hour s)); [lia | done].
Qed.

End Models.

(** ** The statements on the sample states *)

Lemma is_within_dayparting_window_spec_witness :
  is_within_dayparting_window sample_now sample_astimezone
    (db spend_world) (sample_campaign ACTIVE) None = true
  ∧ is_within_dayparting_window sample_now sample_astimezone
      (db spend_world) (sample_campaign ACTIVE)
      (Some {| dt_date := Date 2024 3 12; dt_weekday := 1; dt_hour := 9 |}) = false.
Proof.
  split.
  - apply (is_within_dayparting_window_spec sample_now sample_astimezone
             (db spend_world) (sample_campaign ACTIVE) None).
    exists sample_schedule. vm_compute. repeat split; try discriminate.
    apply list_elem_of_here.
  - apply (is_within_dayparting_window_spec sample_now sample_astimezone
             (db spend_world) (sample_campaign ACTIVE)
             (Some {| dt_date := Date 2024 3 12; dt_weekday := 1; dt_hour := 9 |})).
    intros s (Hin & _ & Hday & _). simpl in Hin, Hday.
    apply list_elem_of_singleton in Hin. subst s. discriminate Hday.
Defined.

Lemma activate_self_checking_witness :
  can_run_now sample_now sample_astimezone (db exhausted_world)
    (sample_campaign PAUSED_BUDGET) None = false
  ∧ activate sample_now sample_astimezone exhausted_world (sample_campaign PAUSED_BUDGET)
    = (sample_campaign PAUSED_BUDGET, exhausted_world).
Proof.
  split; [reflexivity|].
  apply (activate_self_checking sample_now sample_astimezone exhausted_world
           (sample_campaign PAUSED_BUDGET)).
  reflexivity.
Defined.

Lemma exhausted_world_consistent : stored_consistent exhausted_world.
Proof.
  intros b on row Hb Hrow. simpl in Hb, Hrow.
  apply list_elem_of_singleton in Hb. subst b.
  apply lookup_singleton_Some in Hrow as [_ <-].
  split; reflexivity.
Qed.

Lemma summary_write_invariant_witness :
  stored_consistent exhausted_world
  ∧ brand_current exhausted_world sample_brand
  ∧ stored_consistent
      (update_daily_spend exhausted_world
         {| summary_brand := sample_brand; summary_date := Date 2024 3 11;
            columns := exhausted_row |} 2500).2
  ∧ stored_consistent
      (get_or_create_for_date exhausted_world sample_brand (Date 2024 3 12)).2.
Proof.
  assert (Hcur : brand_current exhausted_world sample_brand).
  { intros b Hb _. simpl in Hb. apply list_elem_of_singleton in Hb. by subst b. }
  split; [exact exhausted_world_consistent|]. split; [exact Hcur|].
  destruct (summary_write_invariant exhausted_world
              {| summary_brand := sample_brand; summary_date := Date 2024 3 11;
                 columns := exhausted_row |} 2500 sample_brand (Date 2024 3 12))
    as [_ Hstored].
  destruct (Hstored exhausted_world_consistent) as [Hcreate Hwrites].
  split; [apply (Hwrites Hcur) | apply (Hcreate Hcur)].
Defined.

Lemma get_or_create_for_date_seed_witness :
  budget_summaries (db overspent_world) !! (1, Date 2024 3 11) = None
  ∧ monthly_spend (get_or_create_for_date overspent_world sample_brand (Date 2024 3 11)).1
    = 200000
  ∧ monthly_remaining
      (get_or_create_for_date overspent_world sample_brand (Date 2024 3 11)).1
    = monthly_budget sample_brand - 200000.
Proof.
  split; [reflexivity|].
  pose proof (get_or_create_for_date_seed overspent_world sample_brand
                (Date 2024 3 11) eq_refl) as H.
  destruct (get_or_create_for_date overspent_world sample_brand (Date 2024 3 11))
    as [summary w'].
  destruct H as (_ & Hspend & _ & _ & Hrem). simpl.
  rewrite Hrem, Hspend. split; reflexivity.
Defined.

(** C5, against the statement that the created summary's
    [monthly_remaining] is the monthly budget: after a spend of 2000.00
    earlier in the month, the summary created for 2024-03-11 has
    [monthly_spend = 2000.00] and [monthly_remaining = -1000.00], not the
    budget of 1000.00. *)
Lemma created_summary_remaining_is_not_budget :
  budget_summaries (db overspent_world) !! (brand_id sample_brand, Date 2024 3 11) = None
  ∧ let summary :=
      (get_or_create_for_date overspent_world sample_brand (Date 2024 3 11)).1 in
    monthly_spend summary = 200000
    ∧ monthly_remaining summary = -100000
    ∧ monthly_remaining summary ≠ monthly_budget sample_brand.
Proof. vm_compute. repeat split; discriminate. Qed.






Lemma reset_daily_budgets_spec_witness :
  sample_brand ∈ brands (db exhausted_world)
  ∧ brand_is_active sample_brand = true
  ∧ (∃ row, budget_summaries (db (reset_daily_budgets sample_now sample_astimezone
                                     exhausted_world))
              !! (1, Date 2024 3 11) = Some row
            ∧ daily_spend row = 0)
  ∧ (∃ c', campaigns (db (reset_daily_budgets sample_now sample_astimezone
                           exhausted_world)) !! 0%nat = Some c'
          ∧ campaign_id c' = 1
          ∧ (can_run_now sample_now sample_astimezone
               (db (reset_daily_budgets sample_now sample_astimezone exhausted_world))
               c' None = true →
             status c' = ACTIVE))
  ∧ status <$> campaigns (db (reset_daily_budgets sample_now sample_astimezone
                                exhausted_world)) = [ACTIVE].
Proof.
  assert (Hin : sample_brand ∈ brands (db exhausted_world)) by apply list_elem_of_here.
  split; [exact Hin|]. split; [reflexivity|].
  destruct (reset_daily_budgets_spec sample_now sample_astimezone exhausted_world
              sample_brand Hin eq_refl) as [Hzero Hactive].
  split; [|split; [|reflexivity]].
  - apply Hzero. intros row Hrow. vm_compute in Hrow.
    injection Hrow as <-. vm_compute. discriminate.
  - apply (Hactive (ex_intro _ exhausted_row (conj eq_refl eq_refl))
             0%nat (sample_campaign PAUSED_BUDGET)); reflexivity.
Defined.

(** C6, against the statement that the sweep reactivates every paused
    campaign that can run: on a day that has no summary yet the sweep
    creates one with a daily spend of 0, so it resets nothing and skips
    the reactivation; the campaign stays [PAUSED_BUDGET] although it is
    switched on and [can_run_now] holds. *)
Lemma reset_daily_leaves_runnable_campaign_paused :
  let w' := reset_daily_budgets sample_now sample_astimezone paused_world in
  brands (db paused_world) = [sample_brand]
  ∧ brand_is_active sample_brand = true
  ∧ campaigns (db paused_world) = [sample_campaign PAUSED_BUDGET]
  ∧ budget_summaries (db w') !! (1, Date 2024 3 11)
    = Some {| daily_spend := 0; monthly_spend := 0;
              daily_remaining := 10000; monthly_remaining := 100000 |}
  ∧ campaigns (db w') = [sample_campaign PAUSED_BUDGET]
  ∧ campaign_is_active (sample_campaign PAUSED_BUDGET) = true
  ∧ can_run_now sample_now sample_astimezone (db w')
      (sample_campaign PAUSED_BUDGET) None = true.
Proof. vm_compute. repeat split. Qed.

(** C10.  There is a state in which a brand's spend records of the month
    to date add up to more than its monthly budget while no summary is
    stored for today: [has_budget_remaining] answers true there, and the
    budget sweep sets a switched-on [PAUSED_BUDGET] campaign that is
    within its dayparting window to [ACTIVE]. *)
Theorem overspent_month_without_summary_reactivates :
  ∃ (now : datetime) (astimezone : string → datetime → datetime)
    (w : World) (b : Brand) (c : Campaign),
    brands (db w) = [b]
    ∧ campaigns (db w) = [c]
    ∧ campaign_brand c = b
    ∧ monthly_budget b
      < total_amount (filter (in_month_to_date b (dt_date now)) (spend_records (db w)))
    ∧ budget_summaries (db w) !! (brand_id b, dt_date now) = None
    ∧ has_budget_remaining now (db w) b None = true
    ∧ campaign_is_active c = true
    ∧ status c = PAUSED_BUDGET
    ∧ is_within_dayparting_window now astimezone (db w) c None = true
    ∧ ∃ c', campaigns (db (update_campaign_status now astimezone w)) = [c']
            ∧ campaign_id c' = campaign_id c
            ∧ status c' = ACTIVE.
Proof.
  exists sample_now, sample_astimezone, overspent_world, sample_brand,
    (sample_campaign PAUSED_BUDGET).
  do 3 (split; [reflexivity|]).
  split; [vm_compute; reflexivity|].
  do 5 (split; [reflexivity|]).
  eexists. split; [reflexivity|]. split; reflexivity.
Qed.

(** ** The further statements on the sample states *)

Lemma sample_ids_unique (s : Status) (records : list SpendRecord)
    (summaries : gmap (Z * date) Columns) :
  NoDup (campaign_id <$> campaigns (db (sample_world s records summaries))).
Proof. apply NoDup_singleton. Qed.

Lemma sample_brands_agree (s : Status) (records : list SpendRecord)
    (summaries : gmap (Z * date) Columns) :
  brands_agree (sample_world s records summaries).
Proof.
  intros b Hb b' Hb' _. simpl in Hb, Hb'.
  apply list_elem_of_singleton in Hb, Hb'. by subst.
Qed.





Lemma created_summary_decides_budget_witness :
  budget_summaries (db overspent_world) !! (1, Date 2024 3 11) = None
  ∧ has_budget_remaining sample_now (db overspent_world) sample_brand None = true
  ∧ has_budget_remaining sample_now
      (db (get_or_create_for_date overspent_world sample_brand (Date 2024 3 11)).2)
      sample_brand None = false.
Proof.
  split; [reflexivity|].
  destruct (created_summary_decides_budget sample_now overspent_world sample_brand
              eq_refl) as [Hbefore Hafter].
  split; [exact Hbefore|]. exact (eq_trans Hafter eq_refl).
Defined.

Lemma budget_sweep_per_campaign_witness :
  NoDup (campaign_id <$> campaigns (db overrun_world))
  ∧ campaigns (db overrun_world) !! 0%nat = Some (sample_campaign ACTIVE)
  ∧ ∃ r', campaigns (db (update_campaign_status sample_now sample_astimezone
                           overrun_world)) !! 0%nat = Some r'
          ∧ status r' = PAUSED_BUDGET.
Proof.
  pose proof (sample_ids_unique ACTIVE [] {[ (1, Date 2024 3 11) := exhausted_row ]})
    as Hids.
  split; [exact Hids|]. split; [reflexivity|].
  destruct (budget_sweep_per_campaign sample_now sample_astimezone overrun_world
              0%nat (sample_campaign ACTIVE) Hids eq_refl)
    as (r' & Hi & _ & Hpause & _).
  exists r'. split; [exact Hi|]. apply Hpause; reflexivity.
Defined.

Lemma dayparting_sweep_per_campaign_witness :
  NoDup (campaign_id <$> campaigns (db inverted_world))
  ∧ campaigns (db inverted_world) !! 0%nat = Some (sample_campaign ACTIVE)
  ∧ ∃ r', campaigns (db (check_campaign_dayparting sample_now sample_astimezone
                           inverted_world)) !! 0%nat = Some r'
          ∧ status r' = PAUSED_DAYPART.
Proof.
  assert (Hids : NoDup (campaign_id <$> campaigns (db inverted_world)))
    by apply NoDup_singleton.
  split; [exact Hids|]. split; [reflexivity|].
  destruct (dayparting_sweep_per_campaign sample_now sample_astimezone inverted_world
              0%nat (sample_campaign ACTIVE) Hids eq_refl)
    as (r' & Hi & _ & Hpause & _).
  exists r'. split; [exact Hi|]. apply Hpause; reflexivity.
Defined.

Lemma sweeps_idempotent_witness :
  NoDup (campaign_id <$> campaigns (db overrun_world))
  ∧ db (update_campaign_status sample_now sample_astimezone
          (update_campaign_status sample_now sample_astimezone overrun_world))
    = db (update_campaign_status sample_now sample_astimezone overrun_world).
Proof.
  pose proof (sample_ids_unique ACTIVE [] {[ (1, Date 2024 3 11) := exhausted_row ]})
    as Hids.
  split; [exact Hids|].
  apply (sweeps_idempotent sample_now sample_astimezone overrun_world Hids).
Defined.

Lemma reset_monthly_budgets_spec_witness :
  sample_brand ∈ brands (db month_exhausted_world)
  ∧ brand_is_active sample_brand = true
  ∧ 0 < monthly_spend_before (db month_exhausted_world) sample_brand (Date 2024 3 11)
  ∧ (∃ row, budget_summaries
              (db (reset_monthly_budgets sample_now sample_astimezone
                     month_exhausted_world)) !! (1, Date 2024 3 11) = Some row
            ∧ monthly_spend row = 0)
  ∧ (∃ c', campaigns (db (reset_monthly_budgets sample_now sample_astimezone
                            month_exhausted_world)) !! 0%nat = Some c'
           ∧ campaign_id c' = 1
           ∧ (can_run_now sample_now sample_astimezone
                (db (reset_monthly_budgets sample_now sample_astimezone
                       month_exhausted_world)) c' None = true →
              status c' = ACTIVE))
  ∧ status <$> campaigns (db (reset_monthly_budgets sample_now sample_astimezone
                                month_exhausted_world)) = [ACTIVE].
Proof.
  assert (Hin : sample_brand ∈ brands (db month_exhausted_world))
    by apply list_elem_of_here.
  assert (Hpos : 0 < monthly_spend_before (db month_exhausted_world) sample_brand
                       (Date 2024 3 11)) by (vm_compute; reflexivity).
  split; [exact Hin|]. split; [reflexivity|]. split; [exact Hpos|].
  destruct (reset_monthly_budgets_spec sample_now sample_astimezone
              month_exhausted_world sample_brand Hin eq_refl) as [Hzero Hactive].
  split; [|split; [|reflexivity]].
  - apply Hzero. vm_compute. discriminate.
  - apply (Hactive Hpos 0%nat (sample_campaign PAUSED_BUDGET)); reflexivity.
Defined.

Lemma switched_off_campaign_untouched_witness :
  NoDup (campaign_id <$> campaigns (db inactive_world))
  ∧ campaigns (db inactive_world) !! 0%nat = Some (sample_campaign INACTIVE)
  ∧ campaigns (db (update_campaign_status sample_now sample_astimezone inactive_world))
      !! 0%nat = Some (sample_campaign INACTIVE)
  ∧ campaigns (db (record_spend sample_now inactive_world 1 1 20000 None).2)
      !! 0%nat = Some (sample_campaign INACTIVE).
Proof.
  pose proof (sample_ids_unique INACTIVE [] ∅) as Hids.
  split; [exact Hids|]. split; [reflexivity|].
  destruct (switched_off_campaign_untouched sample_now sample_astimezone inactive_world
              0%nat (sample_campaign INACTIVE) Hids eq_refl (or_intror eq_refl))
    as (_ & Hbudget & _ & _ & Hspend).
  split; [exact Hbudget | apply Hspend].
Defined.

Lemma tasks_keep_summaries_consistent_witness :
  brands_agree exhausted_world
  ∧ stored_consistent exhausted_world
  ∧ stored_consistent (record_spend sample_now exhausted_world 1 1 2500 None).2
  ∧ stored_consistent (reset_daily_budgets sample_now sample_astimezone exhausted_world).
Proof.
  pose proof (sample_brands_agree PAUSED_BUDGET []
                {[ (1, Date 2024 3 11) := exhausted_row ]}) as Hagree.
  split; [exact Hagree|]. split; [exact exhausted_world_consistent|].
  destruct (tasks_keep_summaries_consistent sample_now sample_astimezone exhausted_world
              Hagree exhausted_world_consistent) as (Hspend & Hdaily & _).
  split; [apply Hspend | exact Hdaily].
Defined.

Lemma toggle_rejected_changes_nothing_witness :
  success (CampaignToggleView_post sample_now sample_astimezone exhausted_world 1
             action_activate).1 = false
  ∧ (CampaignToggleView_post sample_now sample_astimezone exhausted_world 1
       action_activate).2 = exhausted_world.
Proof.
  split; [reflexivity|].
  exact (toggle_rejected_changes_nothing sample_now sample_astimezone exhausted_world 1
           action_activate eq_refl).
Defined.

Lemma toggle_outcome_witness :
  status <$> campaigns (db (CampaignToggleView_post sample_now sample_astimezone
                              spend_world 1 action_deactivate).2) = [INACTIVE]
  ∧ ∀ c', c' ∈ campaigns (db (CampaignToggleView_post sample_now sample_astimezone
                                spend_world 1 action_deactivate).2) →
          campaign_id c' = 1 → status c' = INACTIVE.
Proof.
  split; [reflexivity|].
  destruct (toggle_outcome sample_now sample_astimezone spend_world 1)
    as [[_ Hrows] _].
  exact Hrows.
Defined.

Lemma campaign_status_report_witness :
  ∃ data,
    (CampaignStatusView_get sample_now sample_astimezone overspent_world 1).1
    = status_ok data
    ∧ cd_has_budget_remaining data = false
    ∧ cd_can_run_now data
      = cd_has_budget_remaining data && cd_is_within_dayparting data.
Proof.
  destruct (campaign_status_report sample_now sample_astimezone overspent_world 1)
    as (_ & _ & Hdata).
  eexists. split; [reflexivity|]. split; [reflexivity|].
  apply (Hdata _ eq_refl).
Defined.

Lemma brand_status_report_witness :
  ∃ data,
    (BrandStatusView_get sample_now exhausted_world 1).1 = status_ok data
    ∧ bd_paused_budget data = 1%nat
    ∧ bd_total data
      = (bd_active data + bd_paused_budget data
         + bd_paused_daypart data + bd_inactive data)%nat.
Proof.
  destruct (brand_status_report sample_now exhausted_world 1) as (_ & _ & Hdata).
  eexists. split; [reflexivity|]. split; [reflexivity|].
  apply (Hdata _ eq_refl).
Defined.

Lemma cleanup_spares_recent_months_witness :
  date_leb (sample_timedelta_before (dt_date sample_now) 10)
           (replace_day (Date 2024 3 11) 1) = true
  ∧ amount <$> spend_records
                 (db (cleanup_old_spend_records sample_now sample_timedelta_before
                        ledger_world 10)) = [4000]
  ∧ _calculate_monthly_spend
      (db (cleanup_old_spend_records sample_now sample_timedelta_before ledger_world 10))
      sample_brand (Date 2024 3 11)
    = _calculate_monthly_spend (db ledger_world) sample_brand (Date 2024 3 11).
Proof.
  split; [reflexivity|]. split; [reflexivity|].
  destruct (cleanup_spares_recent_months sample_now sample_timedelta_before
              ledger_world 10) as (_ & _ & _ & _ & _ & Hseed).
  apply Hseed. reflexivity.
Defined.

Lemma rejected_schedules_never_open_witness :
  clean inverted_schedule ≠ None
  ∧ is_within_dayparting_window sample_now sample_astimezone (db inverted_world)
      (sample_campaign ACTIVE) None = false.
Proof.
  split; [discriminate|].
  apply (rejected_schedules_never_open sample_now sample_astimezone (db inverted_world)
           (sample_campaign ACTIVE) None).
  intros s Hs _. simpl in Hs. apply list_elem_of_singleton in Hs. subst s.
  discriminate.
Defined.
